(** * EmmyCode: the title-language lookup-or-compute handler

    A shallow embedding of [lambda_function.py]: the Lambda entry point
    [lambda_handler] and its three helpers [get_record],
    [process_with_openai] and [store_record].

    Python values are an inductive type, exceptions are an error type, and
    the two collaborators (the DynamoDB table and the OpenAI chat endpoint)
    are explicit: the table is a list of items carried in the world state,
    their failures and the chat reply are read from an environment, and every
    call made to them is appended to a log.

    Building the table handle ([boto3.resource('dynamodb').Table(...)]) sends
    no request and is not modelled; [context] is unused by the source.  The
    [body] of a response is kept as the object that [json.dumps] serialised;
    [json.dumps] raises on a Decimal, which is what the table client returns
    for every stored number. *)

From Stdlib Require Import String Ascii List ZArith Bool Lia DecimalString.
Import ListNotations.
Local Open Scope string_scope.
#[local] Set Warnings "-register-all".

(** ** Python values *)

(** The values [json.loads] produces, and [decimal.Decimal], which is what
    the table client returns for every stored number.  A float is named by
    its [repr], the shortest decimal text that reads back to the same double;
    [str] of a float prints exactly that text.  A Decimal is named by its
    [str].  A str is held as the bytes of its UTF-8 encoding.  A dict is an
    association list in insertion order with string keys. *)
Inductive pyval : Type :=
| PNone
| PBool (b : bool)
| PInt (z : Z)
| PFloat (repr : string)
| PStr (s : string)
| PList (l : list pyval)
| PDict (d : list (string * pyval))
| PDecimal (text : string).

Definition dict : Type := list (string * pyval).

Fixpoint dict_lookup (d : dict) (k : string) : option pyval :=
  match d with
  | [] => None
  | (k', v) :: d' => if String.eqb k' k then Some v else dict_lookup d' k
  end.

(** [d.get(k)]: the value, or [None] when the key is absent. *)
Definition dict_get (d : dict) (k : string) : pyval :=
  match dict_lookup d k with
  | Some v => v
  | None => PNone
  end.

(** A Decimal is zero when its digits before the exponent are all zeros. *)
Fixpoint decimal_is_zero (text : string) : bool :=
  match text with
  | EmptyString => true
  | String c rest =>
      if Ascii.eqb c "E"%char then true
      else if Ascii.eqb c "0"%char || Ascii.eqb c "."%char || Ascii.eqb c "-"%char
           then decimal_is_zero rest
           else false
  end.

(** Truth value testing, as [if v:] and [not v] do it. *)
Definition truthy (v : pyval) : bool :=
  match v with
  | PNone => false
  | PBool b => b
  | PInt z => negb (Z.eqb z 0)
  | PFloat r => negb (String.eqb r "0.0" || String.eqb r "-0.0")
  | PStr s => negb (String.eqb s "")
  | PList [] => false
  | PList (_ :: _) => true
  | PDict [] => false
  | PDict (_ :: _) => true
  | PDecimal text => negb (decimal_is_zero text)
  end.

Definition type_name (v : pyval) : string :=
  match v with
  | PNone => "NoneType"
  | PBool _ => "bool"
  | PInt _ => "int"
  | PFloat _ => "float"
  | PStr _ => "str"
  | PList _ => "list"
  | PDict _ => "dict"
  | PDecimal _ => "decimal.Decimal"
  end.

(** What the interpreter prints for a list or a dict depends on the [repr] of
    every string inside it (quote choice, escapes, printable code points); it
    is taken from the runtime rather than re-implemented. *)
Class Runtime : Type := { repr_container : pyval -> string }.

(** [str(v)]. *)
Definition py_str {R : Runtime} (v : pyval) : string :=
  match v with
  | PNone => "None"
  | PBool true => "True"
  | PBool false => "False"
  | PInt z => NilZero.string_of_int (Z.to_int z)
  | PFloat r => r
  | PStr s => s
  | PList _ | PDict _ => repr_container v
  | PDecimal text => text
  end.

(** ** Exceptions *)

(** [ClientError] carries both [str(e)] and
    [e.response['Error']['Message']]; the other classes carry [str(e)], except
    [KeyError], which carries the missing key. *)
Inductive exn : Type :=
| Exception (msg : string)
| ClientError (text : string) (message : string)
| JSONDecodeError (msg : string)
| KeyError (key : string)
| TypeError (msg : string)
| AttributeError (msg : string)
| OtherError (msg : string).

(** [str(e)].  A [KeyError] prints the [repr] of its key; the keys looked up
    here are plain identifiers, printed between single quotes. *)
Definition str_exn (e : exn) : string :=
  match e with
  | Exception m => m
  | ClientError text _ => text
  | JSONDecodeError m => m
  | KeyError k => "'" ++ k ++ "'"
  | TypeError m => m
  | AttributeError m => m
  | OtherError m => m
  end.

Inductive result (A : Type) : Type :=
| Ok (a : A)
| Raise (e : exn).
Arguments Ok {A} a.
Arguments Raise {A} e.

Definition rbind {A B} (r : result A) (k : A -> result B) : result B :=
  match r with
  | Ok a => k a
  | Raise e => Raise e
  end.

(** [v[k]] for a string key [k]. *)
Definition subscript (v : pyval) (k : string) : result pyval :=
  match v with
  | PDict d =>
      match dict_lookup d k with
      | Some x => Ok x
      | None => Raise (KeyError k)
      end
  | PList _ => Raise (TypeError "list indices must be integers or slices, not str")
  | PStr _ => Raise (TypeError "string indices must be integers, not 'str'")
  | _ => Raise (TypeError ("'" ++ type_name v ++ "' object is not subscriptable"))
  end.

(** [v.get(k)]: only a dict has the method. *)
Definition method_get (v : pyval) (k : string) : result pyval :=
  match v with
  | PDict d => Ok (dict_get d k)
  | _ => Raise (AttributeError ("'" ++ type_name v ++ "' object has no attribute 'get'"))
  end.

(** ** Reading a record back, and serialising *)

(** What the table client returns for a stored value: every number comes
    back as a Decimal, at any depth; text, booleans and [None] come back as
    they were stored. *)
Fixpoint read_back (v : pyval) : pyval :=
  match v with
  | PInt z => PDecimal (NilZero.string_of_int (Z.to_int z))
  | PFloat r => PDecimal r
  | PList l => PList (map read_back l)
  | PDict d => PDict (map (fun kv => (fst kv, read_back (snd kv))) d)
  | _ => v
  end.

Definition read_back_item (item : dict) : dict :=
  map (fun kv => (fst kv, read_back (snd kv))) item.

Fixpoint holds_decimal (v : pyval) : bool :=
  match v with
  | PDecimal _ => true
  | PList l => existsb holds_decimal l
  | PDict d => existsb (fun kv => holds_decimal (snd kv)) d
  | _ => false
  end.

(** A value that holds a number at some depth. *)
Fixpoint holds_number (v : pyval) : bool :=
  match v with
  | PInt _ | PFloat _ | PDecimal _ => true
  | PList l => existsb holds_number l
  | PDict d => existsb (fun kv => holds_number (snd kv)) d
  | _ => false
  end.

(** [json.dumps(v)] with the default encoder: it has no case for a Decimal.
    The text it returns is kept as the object it was given. *)
Definition json_dumps (v : pyval) : result pyval :=
  if holds_decimal v
  then Raise (TypeError "Object of type Decimal is not JSON serializable")
  else Ok v.

(** ** The world: the table and the log of calls *)

Inductive effect : Type :=
| GetItemCall (record_id title : pyval)
| ChatCompletionCall (title : pyval)
| PutItemCall (item : dict).

Record world : Type := { table : list dict; log : list effect }.

Definition log_call (c : effect) (w : world) : world :=
  {| table := table w; log := log w ++ [c] |}.

(** What the collaborators do during one invocation: whether [get_item] and
    [put_item] raise, and what lines 82-102 of [process_with_openai] (the chat
    completion call, reading the message content and [json.loads]) come to
    for a title: the parsed value, or the exception raised on the way. *)
Record env : Type := {
  get_item_fault : pyval -> pyval -> option exn;
  put_item_fault : dict -> option exn;
  chat_reply : pyval -> result pyval
}.

(** Key attributes of the table are scalars, compared within their type. *)
Definition key_eqb (a b : pyval) : bool :=
  match a, b with
  | PStr x, PStr y => String.eqb x y
  | PInt x, PInt y => Z.eqb x y
  | _, _ => false
  end.

Definition has_key (record_id title : pyval) (item : dict) : bool :=
  match dict_lookup item "RecordID", dict_lookup item "Title" with
  | Some r, Some t => key_eqb r record_id && key_eqb t title
  | _, _ => false
  end.

Definition tbl_find (record_id title : pyval) (t : list dict) : option dict :=
  find (has_key record_id title) t.

(** An unconditional put: the item replaces whatever the table held under its
    composite key. *)
Definition tbl_put (item : dict) (t : list dict) : list dict :=
  item :: filter (fun x => negb (has_key (dict_get item "RecordID") (dict_get item "Title") x)) t.

(** ** Computations: state passing with exceptions *)

Definition M (A : Type) : Type := world -> result A * world.

Definition ret {A} (a : A) : M A := fun w => (Ok a, w).
Definition raise {A} (e : exn) : M A := fun w => (Raise e, w).
Definition lift {A} (r : result A) : M A := fun w => (r, w).

Definition bind {A B} (c : M A) (k : A -> M B) : M B :=
  fun w =>
    match c w with
    | (Ok a, w') => k a w'
    | (Raise e, w') => (Raise e, w')
    end.

(** [try: c  except ... as e: h e]; a handler that does not match re-raises. *)
Definition try_except {A} (c : M A) (h : exn -> M A) : M A :=
  fun w =>
    match c w with
    | (Ok a, w') => (Ok a, w')
    | (Raise e, w') => h e w'
    end.

Declare Scope py_scope.
Delimit Scope py_scope with py.
Notation "'let?' x := r 'in' k" := (rbind r (fun x => k))
  (at level 100, x name, r at next level, right associativity) : py_scope.
Notation "x <- c ;; k" := (bind c (fun x => k))
  (at level 100, c at next level, right associativity) : py_scope.
Notation "c ;;; k" := (bind c (fun _ => k))
  (at level 100, right associativity) : py_scope.
Local Open Scope py_scope.

(** ** The collaborators' calls *)

(** [dynamodb_client.get_item(Key=...)]: the response holds ["Item"] only when
    the key is present, and holds it as the client reads it back. *)
Definition get_item (E : env) (record_id title : pyval) : M dict :=
  fun w =>
    let w' := log_call (GetItemCall record_id title) w in
    match get_item_fault E record_id title with
    | Some e => (Raise e, w')
    | None =>
        match tbl_find record_id title (table w) with
        | Some item => (Ok [("Item", PDict (read_back_item item))], w')
        | None => (Ok [], w')
        end
    end.

(** [dynamodb_client.put_item(Item=...)]. *)
Definition put_item (E : env) (item : dict) : M unit :=
  fun w =>
    let w' := log_call (PutItemCall item) w in
    match put_item_fault E item with
    | Some e => (Raise e, w')
    | None => (Ok tt, {| table := tbl_put item (table w'); log := log w' |})
    end.

Definition chat_completion (E : env) (title : pyval) : M pyval :=
  fun w => (chat_reply E title, log_call (ChatCompletionCall title) w).

(** ** The source functions *)

Definition get_record (E : env) (record_id title : pyval) : M pyval :=
  try_except
    (response <- get_item E record_id title ;;
     ret (dict_get response "Item"))
    (fun e =>
       match e with
       | ClientError _ message => raise (Exception ("DynamoDB error: " ++ message))
       | _ => raise e
       end).

Definition process_with_openai (E : env) (title : pyval) : M pyval :=
  try_except
    (parsed_result <- chat_completion E title ;;
     ret parsed_result)
    (fun e =>
       match e with
       | JSONDecodeError _ =>
           raise (Exception "Failed to parse the response from OpenAI. Ensure the response is in JSON format.")
       | _ => raise (Exception ("OpenAI API error: " ++ str_exn e))
       end).

(** The [Item] literal of [store_record], evaluated entry by entry. *)
Definition build_item {R : Runtime}
    (record_id title original_language data : pyval) : result dict :=
  let? detected_language := subscript data "DetectedLanguage" in
  let? detected_code := subscript data "ISO639LanguageCode" in
  let? confidence := subscript data "Confidence" in
  let? transliteration := subscript data "Transliteration" in
  let? translation := subscript data "Translation" in
  Ok [ ("RecordID", record_id);
       ("Title", title);
       ("OriginalLanguage", original_language);
       ("DetectedLanguage", detected_language);
       ("DetectedCode", detected_code);
       ("Confidence", PStr (py_str confidence));
       ("Transliteration", transliteration);
       ("Translation", translation) ].

Definition store_record {R : Runtime} (E : env)
    (record_id title original_language data : pyval) : M unit :=
  try_except
    (item <- lift (build_item record_id title original_language data) ;;
     put_item E item)
    (fun e =>
       match e with
       | ClientError _ message => raise (Exception ("DynamoDB error: " ++ message))
       | _ => raise e
       end).

Record response : Type := { statusCode : Z; body : pyval }.

(** The [body] field holds the object that [json.dumps] serialised. *)
Definition found_body (record : pyval) : pyval :=
  PDict [("message", PStr "Record found."); ("data", record)].

Definition stored_body (openai_data : pyval) : pyval :=
  PDict [("message", PStr "Record processed and stored."); ("data", openai_data)].

Definition error_body (msg : string) : pyval :=
  PDict [("error", PStr msg)].

(** The body of the [try] block of [lambda_handler].  [json.dumps] is written
    out where it can raise, on the record read from the table; the other
    bodies are built from text and from what [json.loads] returned, which
    holds no Decimal, and always serialise. *)
Definition handler_try {R : Runtime} (E : env) (event : pyval) : M response :=
  record_id <- lift (method_get event "RecordID") ;;
  title <- lift (method_get event "Title") ;;
  original_language <- lift (method_get event "OriginalLanguage") ;;
  if negb (truthy record_id) || negb (truthy title) then
    ret {| statusCode := 400;
           body := error_body "RecordID and Title are required." |}
  else
    record <- get_record E record_id title ;;
    if truthy record then
      found <- lift (json_dumps (found_body record)) ;;
      ret {| statusCode := 200; body := found |}
    else
      openai_data <- process_with_openai E title ;;
      store_record E record_id title original_language openai_data ;;;
      ret {| statusCode := 200; body := stored_body openai_data |}.

Definition lambda_handler {R : Runtime} (E : env) (event : pyval) (w : world)
  : response * world :=
  match handler_try E event w with
  | (Ok r, w') => (r, w')
  | (Raise e, w') =>
      ({| statusCode := 501; body := error_body (str_exn e) |}, w')
  end.

(** Successive invocations, each under its own collaborator behaviour. *)
Fixpoint invoke_all {R : Runtime} (Es : list env) (event : pyval) (w : world)
  : list response * world :=
  match Es with
  | [] => ([], w)
  | E :: Es' =>
      let (r, w') := lambda_handler E event w in
      let (rs, w'') := invoke_all Es' event w' in
      (r :: rs, w'')
  end.

(** What the two [except ClientError] clauses re-raise. *)
Definition store_exception (e : exn) : exn :=
  match e with
  | ClientError _ message => Exception ("DynamoDB error: " ++ message)
  | _ => e
  end.

(** What the [except] clauses of [process_with_openai] raise. *)
Definition analysis_exception (e : exn) : exn :=
  match e with
  | JSONDecodeError _ =>
      Exception "Failed to parse the response from OpenAI. Ensure the response is in JSON format."
  | _ => Exception ("OpenAI API error: " ++ str_exn e)
  end.

(** ** One invocation as a decision tree *)

Definition lookup_result (E : env) (record_id title : pyval) (t : list dict)
  : result pyval :=
  match get_item_fault E record_id title with
  | Some e => Raise (store_exception e)
  | None =>
      Ok (match tbl_find record_id title t with
          | Some item => PDict (read_back_item item)
          | None => PNone
          end)
  end.

Definition analysis_result (E : env) (title : pyval) : result pyval :=
  match chat_reply E title with
  | Ok v => Ok v
  | Raise e => Raise (analysis_exception e)
  end.

(** The result of the [try] block, the table it leaves and the calls it
    makes, read off the results of the three helpers. *)
Definition outcome {R : Runtime} (E : env) (event : pyval) (t : list dict)
  : result response * list dict * list effect :=
  match event with
  | PDict d =>
      let record_id := dict_get d "RecordID" in
      let title := dict_get d "Title" in
      let original_language := dict_get d "OriginalLanguage" in
      if negb (truthy record_id) || negb (truthy title) then
        (Ok {| statusCode := 400;
               body := error_body "RecordID and Title are required." |}, t, [])
      else
        match lookup_result E record_id title t with
        | Raise e => (Raise e, t, [GetItemCall record_id title])
        | Ok record =>
            if truthy record then
              (rbind (json_dumps (found_body record))
                     (fun found => Ok {| statusCode := 200; body := found |}),
               t, [GetItemCall record_id title])
            else
              match analysis_result E title with
              | Raise e =>
                  (Raise e, t,
                   [GetItemCall record_id title; ChatCompletionCall title])
              | Ok data =>
                  match build_item record_id title original_language data with
                  | Raise e =>
                      (Raise e, t,
                       [GetItemCall record_id title; ChatCompletionCall title])
                  | Ok item =>
                      match put_item_fault E item with
                      | Some e =>
                          (Raise (store_exception e), t,
                           [GetItemCall record_id title; ChatCompletionCall title;
                            PutItemCall item])
                      | None =>
                          (Ok {| statusCode := 200; body := stored_body data |},
                           tbl_put item t,
                           [GetItemCall record_id title; ChatCompletionCall title;
                            PutItemCall item])
                      end
                  end
              end
        end
  | _ =>
      (Raise (AttributeError ("'" ++ type_name event ++ "' object has no attribute 'get'")),
       t, [])
  end.

(** ** Vocabulary of the statements *)

(** The calls one invocation may add to the log.  The chat endpoint is called
    only after a lookup that returned nothing, the table is written only
    after an analysis that returned, and no call is made twice. *)
Inductive sequential (E : env) (w : world) : list effect -> Prop :=
| no_call : sequential E w []
| lookup_only (record_id title : pyval) :
    sequential E w [GetItemCall record_id title]
| lookup_then_analysis (record_id title record : pyval) :
    fst (get_record E record_id title w) = Ok record ->
    truthy record = false ->
    sequential E w [GetItemCall record_id title; ChatCompletionCall title]
| lookup_analysis_write (record_id title record data : pyval) (item : dict) :
    fst (get_record E record_id title w) = Ok record ->
    truthy record = false ->
    fst (process_with_openai E title (log_call (GetItemCall record_id title) w)) = Ok data ->
    sequential E w [GetItemCall record_id title; ChatCompletionCall title;
                    PutItemCall item].

(** A field of the input that is absent, or present and the empty string. *)
Definition absent_or_empty (d : dict) (k : string) : Prop :=
  dict_lookup d k = None \/ dict_lookup d k = Some (PStr "").

Definition required_keys : list string :=
  ["DetectedLanguage"; "ISO639LanguageCode"; "Confidence"; "Transliteration"; "Translation"].

Definition has_field (d : dict) (k : string) : bool :=
  match dict_lookup d k with
  | Some _ => true
  | None => false
  end.

(** The parsed payload is an object that holds every required key. *)
Definition has_required_keys (v : pyval) : bool :=
  match v with
  | PDict d => forallb (has_field d) required_keys
  | _ => false
  end.

Definition is_str (v : pyval) : bool :=
  match v with
  | PStr _ => true
  | _ => false
  end.

(** A reply of the analysis that is not JSON, or that is JSON without one of
    the required keys. *)
Definition malformed_reply (r : result pyval) : Prop :=
  (exists m, r = Raise (JSONDecodeError m))
  \/ (exists v, r = Ok v /\ has_required_keys v = false).

(** The message of the error response a failed store call ends in. *)
Definition store_error_message (e : exn) : string :=
  match e with
  | ClientError _ message => "DynamoDB error: " ++ message
  | _ => str_exn e
  end.

(** ** The request sent to the chat endpoint *)

Definition system_prompt : string :=
  "You are an expert language model trained to detect languages, provide transliterations, and generate translations for movie titles. Provide a confidence score between 0 and 1 for the language detection.".

Definition user_prompt_head : string := "Given the title: '".

Definition user_prompt_tail : string :=
  "', detect the language both by name and ISO 639 language code, provide a transliteration into the Latin-1 character set, and translate it to English. Return the output in JSON format with keys: DetectedLanguage, ISO639LanguageCode, Confidence, Transliteration, and Translation. Do not include code block formatting.".

(** The f-string of [process_with_openai]: [{title}] is replaced by
    [str(title)]. *)
Definition user_prompt {R : Runtime} (title : pyval) : string :=
  user_prompt_head ++ py_str title ++ user_prompt_tail.

(** The keyword arguments of [openai.chat.completions.create]. *)
Definition chat_request {R : Runtime} (title : pyval) : pyval :=
  PDict [ ("model", PStr "gpt-4o-mini");
          ("messages",
           PList [ PDict [("role", PStr "system"); ("content", PStr system_prompt)];
                   PDict [("role", PStr "user"); ("content", PStr (user_prompt title))] ]);
          ("temperature", PInt 0) ].

(** ** The paths of one invocation *)

(** Every way [lambda_handler] can run on an event from a world, with the
    response and the world it ends in. *)
Inductive path {R : Runtime} (E : env) (w : world) : pyval -> response * world -> Prop :=
| path_not_object (event : pyval) :
    (forall d, event <> PDict d) ->
    path E w event
         ({| statusCode := 501;
             body := error_body ("'" ++ type_name event ++ "' object has no attribute 'get'") |},
          w)
| path_invalid (d : dict) :
    truthy (dict_get d "RecordID") = false \/ truthy (dict_get d "Title") = false ->
    path E w (PDict d)
         ({| statusCode := 400; body := error_body "RecordID and Title are required." |}, w)
| path_lookup_fails (d : dict) (e : exn) :
    truthy (dict_get d "RecordID") = true ->
    truthy (dict_get d "Title") = true ->
    get_item_fault E (dict_get d "RecordID") (dict_get d "Title") = Some e ->
    path E w (PDict d)
         ({| statusCode := 501; body := error_body (store_error_message e) |},
          {| table := table w;
             log := log w ++ [GetItemCall (dict_get d "RecordID") (dict_get d "Title")] |})
| path_hit (d : dict) (item : dict) :
    truthy (dict_get d "RecordID") = true ->
    truthy (dict_get d "Title") = true ->
    get_item_fault E (dict_get d "RecordID") (dict_get d "Title") = None ->
    tbl_find (dict_get d "RecordID") (dict_get d "Title") (table w) = Some item ->
    holds_number (PDict item) = false ->
    path E w (PDict d)
         ({| statusCode := 200; body := found_body (PDict item) |},
          {| table := table w;
             log := log w ++ [GetItemCall (dict_get d "RecordID") (dict_get d "Title")] |})
| path_hit_not_serialised (d : dict) (item : dict) :
    truthy (dict_get d "RecordID") = true ->
    truthy (dict_get d "Title") = true ->
    get_item_fault E (dict_get d "RecordID") (dict_get d "Title") = None ->
    tbl_find (dict_get d "RecordID") (dict_get d "Title") (table w) = Some item ->
    holds_number (PDict item) = true ->
    path E w (PDict d)
         ({| statusCode := 501;
             body := error_body "Object of type Decimal is not JSON serializable" |},
          {| table := table w;
             log := log w ++ [GetItemCall (dict_get d "RecordID") (dict_get d "Title")] |})
| path_analysis_fails (d : dict) (e : exn) :
    truthy (dict_get d "RecordID") = true ->
    truthy (dict_get d "Title") = true ->
    get_item_fault E (dict_get d "RecordID") (dict_get d "Title") = None ->
    tbl_find (dict_get d "RecordID") (dict_get d "Title") (table w) = None ->
    chat_reply E (dict_get d "Title") = Raise e ->
    path E w (PDict d)
         ({| statusCode := 501; body := error_body (str_exn (analysis_exception e)) |},
          {| table := table w;
             log := log w ++ [GetItemCall (dict_get d "RecordID") (dict_get d "Title");
                              ChatCompletionCall (dict_get d "Title")] |})
| path_build_fails (d : dict) (data : pyval) (e : exn) :
    truthy (dict_get d "RecordID") = true ->
    truthy (dict_get d "Title") = true ->
    get_item_fault E (dict_get d "RecordID") (dict_get d "Title") = None ->
    tbl_find (dict_get d "RecordID") (dict_get d "Title") (table w) = None ->
    chat_reply E (dict_get d "Title") = Ok data ->
    build_item (dict_get d "RecordID") (dict_get d "Title")
               (dict_get d "OriginalLanguage") data = Raise e ->
    path E w (PDict d)
         ({| statusCode := 501; body := error_body (str_exn e) |},
          {| table := table w;
             log := log w ++ [GetItemCall (dict_get d "RecordID") (dict_get d "Title");
                              ChatCompletionCall (dict_get d "Title")] |})
| path_put_fails (d : dict) (data : pyval) (item : dict) (e : exn) :
    truthy (dict_get d "RecordID") = true ->
    truthy (dict_get d "Title") = true ->
    get_item_fault E (dict_get d "RecordID") (dict_get d "Title") = None ->
    tbl_find (dict_get d "RecordID") (dict_get d "Title") (table w) = None ->
    chat_reply E (dict_get d "Title") = Ok data ->
    build_item (dict_get d "RecordID") (dict_get d "Title")
               (dict_get d "OriginalLanguage") data = Ok item ->
    put_item_fault E item = Some e ->
    path E w (PDict d)
         ({| statusCode := 501; body := error_body (store_error_message e) |},
          {| table := table w;
             log := log w ++ [GetItemCall (dict_get d "RecordID") (dict_get d "Title");
                              ChatCompletionCall (dict_get d "Title");
                              PutItemCall item] |})
| path_stored (d : dict) (data : pyval) (item : dict) :
    truthy (dict_get d "RecordID") = true ->
    truthy (dict_get d "Title") = true ->
    get_item_fault E (dict_get d "RecordID") (dict_get d "Title") = None ->
    tbl_find (dict_get d "RecordID") (dict_get d "Title") (table w) = None ->
    chat_reply E (dict_get d "Title") = Ok data ->
    build_item (dict_get d "RecordID") (dict_get d "Title")
               (dict_get d "OriginalLanguage") data = Ok item ->
    put_item_fault E item = None ->
    path E w (PDict d)
         ({| statusCode := 200; body := stored_body data |},
          {| table := tbl_put item (table w);
             log := log w ++ [GetItemCall (dict_get d "RecordID") (dict_get d "Title");
                              ChatCompletionCall (dict_get d "Title");
                              PutItemCall item] |}).

(** The attributes of a stored record, in the order of the [Item] literal. *)
Definition item_attributes : list string :=
  [ "RecordID"; "Title"; "OriginalLanguage"; "DetectedLanguage"; "DetectedCode";
    "Confidence"; "Transliteration"; "Translation" ].

(** A call that, if it is a write, hands the table a record of the request:
    the eight attributes, the request's own key and [OriginalLanguage], and a
    [Confidence] that is text. *)
Definition writes_own_record (d : dict) (c : effect) : Prop :=
  match c with
  | PutItemCall item =>
      map fst item = item_attributes
      /\ dict_lookup item "RecordID" = Some (dict_get d "RecordID")
      /\ dict_lookup item "Title" = Some (dict_get d "Title")
      /\ dict_lookup item "OriginalLanguage" = Some (dict_get d "OriginalLanguage")
      /\ is_str (dict_get item "Confidence") = true
  | _ => True
  end.

(** The first required key, in the order of the [Item] literal, that a reply
    lacks. *)
Definition first_missing_key (reply : dict) : option string :=
  find (fun k => negb (has_field reply k)) required_keys.

(** The message of the error response a failed analysis ends in. *)
Definition analysis_error_message (e : exn) : string :=
  match e with
  | JSONDecodeError _ =>
      "Failed to parse the response from OpenAI. Ensure the response is in JSON format."
  | _ => "OpenAI API error: " ++ str_exn e
  end.

(** ** Sample data *)

(** The examples below print no list and no dict, so this runtime is never
    consulted by them. *)
Definition sample_runtime : Runtime := {| repr_container := fun _ => "" |}.

Definition no_get_fault : pyval -> pyval -> option exn := fun _ _ => None.
Definition no_put_fault : dict -> option exn := fun _ => None.

Definition empty_world : world := {| table := []; log := [] |}.

(** The scenario of the specification: record 7, an Italian title. *)
Definition event7 : pyval :=
  PDict [ ("RecordID", PStr "7");
          ("Title", PStr "La Vita è Bella");
          ("OriginalLanguage", PStr "Italian") ].

Definition analysis7 : pyval :=
  PDict [ ("DetectedLanguage", PStr "Italian");
          ("ISO639LanguageCode", PStr "it");
          ("Confidence", PFloat "0.95");
          ("Transliteration", PStr "La Vita e Bella");
          ("Translation", PStr "Life Is Beautiful") ].

Definition item7 : dict :=
  [ ("RecordID", PStr "7");
    ("Title", PStr "La Vita è Bella");
    ("OriginalLanguage", PStr "Italian");
    ("DetectedLanguage", PStr "Italian");
    ("DetectedCode", PStr "it");
    ("Confidence", PStr "0.95");
    ("Transliteration", PStr "La Vita e Bella");
    ("Translation", PStr "Life Is Beautiful") ].

Definition env7 : env :=
  {| get_item_fault := no_get_fault;
     put_item_fault := no_put_fault;
     chat_reply := fun _ => Ok analysis7 |}.

(** The same collaborators, except that the table rejects the write. *)
Definition env7_put_fails : env :=
  {| get_item_fault := no_get_fault;
     put_item_fault := fun _ =>
       Some (ClientError
               "An error occurred (ProvisionedThroughputExceededException) when calling the PutItem operation: Throughput exceeded"
               "Throughput exceeded");
     chat_reply := fun _ => Ok analysis7 |}.

(** A request without [OriginalLanguage], and a reply whose confidence is the
    number 0.87. *)
Definition event42 : pyval :=
  PDict [ ("RecordID", PStr "42"); ("Title", PStr "Amelie") ].

Definition analysis42 : pyval :=
  PDict [ ("DetectedLanguage", PStr "French");
          ("ISO639LanguageCode", PStr "fr");
          ("Confidence", PFloat "0.87");
          ("Transliteration", PStr "Amelie");
          ("Translation", PStr "Amelie") ].

Definition env42 : env :=
  {| get_item_fault := no_get_fault;
     put_item_fault := no_put_fault;
     chat_reply := fun _ => Ok analysis42 |}.

(** A reply that is JSON but lacks [Translation]. *)
Definition analysis_short : pyval :=
  PDict [ ("DetectedLanguage", PStr "French");
          ("ISO639LanguageCode", PStr "fr");
          ("Confidence", PFloat "0.87");
          ("Transliteration", PStr "Amelie") ].

Definition env_short : env :=
  {| get_item_fault := no_get_fault;
     put_item_fault := no_put_fault;
     chat_reply := fun _ => Ok analysis_short |}.

(** A reply that is not JSON at all. *)
Definition env_not_json : env :=
  {| get_item_fault := no_get_fault;
     put_item_fault := no_put_fault;
     chat_reply := fun _ =>
       Raise (JSONDecodeError "Expecting value: line 1 column 1 (char 0)") |}.

(** A request that names only its record. *)
Definition event_no_title : pyval := PDict [ ("RecordID", PStr "42") ].

(** Collaborators that agree with [env7] on the key of [event7] and differ
    from it elsewhere, and a world that holds another record and an older
    log. *)
Definition env7_elsewhere : env :=
  {| get_item_fault := fun record_id _ =>
       if key_eqb record_id (PStr "7") then None
       else Some (OtherError "Could not connect to the endpoint URL");
     put_item_fault := no_put_fault;
     chat_reply := fun title =>
       if key_eqb title (PStr "La Vita è Bella") then Ok analysis7
       else Raise (OtherError "Connection error.") |}.

Definition world_elsewhere : world :=
  {| table := [ [ ("RecordID", PStr "8"); ("Title", PStr "Amelie");
                  ("OriginalLanguage", PNone) ] ];
     log := [ GetItemCall (PStr "8") (PStr "Amelie") ] |}.

(** A table that throttles its reads, and a chat endpoint that refuses the
    call. *)
Definition env_get_fails : env :=
  {| get_item_fault := fun _ _ =>
       Some (ClientError
               "An error occurred (ProvisionedThroughputExceededException) when calling the GetItem operation: Throughput exceeded"
               "Throughput exceeded");
     put_item_fault := no_put_fault;
     chat_reply := fun _ => Ok analysis7 |}.

Definition env_chat_fails : env :=
  {| get_item_fault := no_get_fault;
     put_item_fault := no_put_fault;
     chat_reply := fun _ => Raise (OtherError "Connection error.") |}.

(** A title that is a year, and a reply that gives its translation as the
    number 1984. *)
Definition event1984 : pyval :=
  PDict [ ("RecordID", PStr "11"); ("Title", PStr "1984") ].

Definition analysis1984 : pyval :=
  PDict [ ("DetectedLanguage", PStr "English");
          ("ISO639LanguageCode", PStr "en");
          ("Confidence", PFloat "0.99");
          ("Transliteration", PStr "1984");
          ("Translation", PInt 1984) ].

Definition item1984 : dict :=
  [ ("RecordID", PStr "11");
    ("Title", PStr "1984");
    ("OriginalLanguage", PNone);
    ("DetectedLanguage", PStr "English");
    ("DetectedCode", PStr "en");
    ("Confidence", PStr "0.99");
    ("Transliteration", PStr "1984");
    ("Translation", PInt 1984) ].

Definition env1984 : env :=
  {| get_item_fault := no_get_fault;
     put_item_fault := no_put_fault;
     chat_reply := fun _ => Ok analysis1984 |}.

(** The record of [world_elsewhere]. *)
Definition item8 : dict :=
  [ ("RecordID", PStr "8"); ("Title", PStr "Amelie"); ("OriginalLanguage", PNone) ].

(** ** The scenario of the specification, run *)

Example scenario7_runs :
  lambda_handler (R := sample_runtime) env7 event7 empty_world
  = ({| statusCode := 200; body := stored_body analysis7 |},
     {| table := [item7];
        log := [ GetItemCall (PStr "7") (PStr "La Vita è Bella");
                 ChatCompletionCall (PStr "La Vita è Bella");
                 PutItemCall item7 ] |}).
Proof. reflexivity. Qed.

(** ** Records as they are read back *)

Lemma pyval_nested_ind (P : pyval -> Prop) :
  P PNone ->
  (forall b, P (PBool b)) ->
  (forall z, P (PInt z)) ->
  (forall r, P (PFloat r)) ->
  (forall s, P (PStr s)) ->
  (forall l, Forall P l -> P (PList l)) ->
  (forall d, Forall (fun kv => P (snd kv)) d -> P (PDict d)) ->
  (forall t, P (PDecimal t)) ->
  forall v, P v.
Proof.
  intros HNone HBool HInt HFloat HStr HList HDict HDecimal.
  fix IH 1. intros [|b|z|r|s|l|d|t].
  - exact HNone.
  - apply HBool.
  - apply HInt.
  - apply HFloat.
  - apply HStr.
  - apply HList. revert l. fix IHl 1. intros [|x l]; constructor.
    + apply IH.
    + apply IHl.
  - apply HDict. revert d. fix IHd 1. intros [|[k x] d]; constructor.
    + apply IH.
    + apply IHd.
  - apply HDecimal.
Qed.

(** What is read back holds a Decimal exactly when what was stored holds a
    number. *)
Lemma holds_decimal_read_back (v : pyval) :
  holds_decimal (read_back v) = holds_number v.
Proof.
  induction v as [|b|z|r|s|l IHl|d IHd|t] using pyval_nested_ind; try reflexivity.
  - cbn [read_back holds_decimal holds_number].
    induction IHl as [|x l Hx _ IH]; [reflexivity|].
    cbn [map existsb]. rewrite Hx, IH. reflexivity.
  - cbn [read_back holds_decimal holds_number].
    induction IHd as [|kv d Hkv _ IH]; [reflexivity|].
    cbn [map existsb fst snd]. rewrite Hkv, IH. reflexivity.
Qed.

(** A value that holds no number is read back as it was stored. *)
Lemma read_back_fixed (v : pyval) : holds_number v = false -> read_back v = v.
Proof.
  induction v as [|b|z|r|s|l IHl|d IHd|t] using pyval_nested_ind;
    try reflexivity; try discriminate.
  - cbn [read_back holds_number]. intros H. f_equal.
    induction IHl as [|x l Hx _ IH]; [reflexivity|].
    cbn [existsb] in H. apply orb_false_iff in H. destruct H as [H1 H2].
    cbn [map]. rewrite (Hx H1), (IH H2). reflexivity.
  - cbn [read_back holds_number]. intros H. f_equal.
    induction IHd as [|[k x] d Hkv _ IH]; [reflexivity|].
    cbn [existsb fst snd] in H, Hkv. apply orb_false_iff in H. destruct H as [H1 H2].
    cbn [map fst snd]. rewrite (Hkv H1), (IH H2). reflexivity.
Qed.

Lemma read_back_item_fixed (item : dict) :
  holds_number (PDict item) = false -> read_back_item item = item.
Proof.
  intros H. apply read_back_fixed in H. injection H as H. exact H.
Qed.

Lemma holds_decimal_read_back_item (item : dict) :
  holds_decimal (PDict (read_back_item item)) = holds_number (PDict item).
Proof. exact (holds_decimal_read_back (PDict item)). Qed.

(** [json.dumps] of the body of a hit raises exactly when the record holds a
    Decimal. *)
Lemma json_dumps_found_body (record : pyval) :
  json_dumps (found_body record) =
  if holds_decimal record
  then Raise (TypeError "Object of type Decimal is not JSON serializable")
  else Ok (found_body record).
Proof.
  unfold json_dumps, found_body. cbn [holds_decimal existsb snd].
  destruct (holds_decimal record); reflexivity.
Qed.

Lemma truthy_read_back_item (item : dict) :
  truthy (PDict (read_back_item item)) = truthy (PDict item).
Proof. destruct item; reflexivity. Qed.

(** ** The helpers, one call at a time *)

Section Runs.
Context {R : Runtime}.
Variable E : env.

Lemma str_store_exception (e : exn) :
  str_exn (store_exception e) = store_error_message e.
Proof. destruct e; reflexivity. Qed.

Lemma get_record_run (record_id title : pyval) (w : world) :
  get_record E record_id title w =
  (match get_item_fault E record_id title with
   | Some e => Raise (store_exception e)
   | None =>
       Ok (match tbl_find record_id title (table w) with
           | Some item => PDict (read_back_item item)
           | None => PNone
           end)
   end,
   log_call (GetItemCall record_id title) w).
Proof.
  unfold get_record, try_except, bind, get_item, ret, raise.
  destruct (get_item_fault E record_id title) as [e|].
  - destruct e; reflexivity.
  - destruct (tbl_find record_id title (table w)); reflexivity.
Qed.

Lemma process_with_openai_run (title : pyval) (w : world) :
  process_with_openai E title w =
  (match chat_reply E title with
   | Ok v => Ok v
   | Raise e => Raise (analysis_exception e)
   end,
   log_call (ChatCompletionCall title) w).
Proof.
  unfold process_with_openai, try_except, bind, chat_completion, ret, raise.
  destruct (chat_reply E title) as [v|e]; [reflexivity|].
  destruct e; reflexivity.
Qed.

Lemma store_record_run (record_id title original_language data : pyval) (w : world) :
  store_record E record_id title original_language data w =
  match build_item record_id title original_language data with
  | Raise e => (Raise (store_exception e), w)
  | Ok item =>
      match put_item_fault E item with
      | Some e => (Raise (store_exception e), log_call (PutItemCall item) w)
      | None =>
          (Ok tt, {| table := tbl_put item (table w);
                     log := log w ++ [PutItemCall item] |})
      end
  end.
Proof.
  unfold store_record, try_except, bind, lift, put_item, raise.
  destruct (build_item record_id title original_language data) as [item|e].
  - destruct (put_item_fault E item) as [e|]; [destruct e|]; reflexivity.
  - destruct e; reflexivity.
Qed.

(** [build_item] raises nothing that the [except ClientError] clause of
    [store_record] would rewrite. *)
Lemma build_item_exception (record_id title original_language data : pyval) (e : exn) :
  build_item record_id title original_language data = Raise e ->
  store_exception e = e.
Proof.
  unfold build_item, rbind, subscript.
  destruct data; try (intros H; inversion H; reflexivity).
  repeat match goal with
         | |- context [dict_lookup ?d ?k] => destruct (dict_lookup d k)
         end; intros H; inversion H; reflexivity.
Qed.

Lemma build_item_fields (record_id title original_language : pyval) (d : dict)
      (dl dc c tl tr : pyval) :
  dict_lookup d "DetectedLanguage" = Some dl ->
  dict_lookup d "ISO639LanguageCode" = Some dc ->
  dict_lookup d "Confidence" = Some c ->
  dict_lookup d "Transliteration" = Some tl ->
  dict_lookup d "Translation" = Some tr ->
  build_item record_id title original_language (PDict d) =
  Ok [ ("RecordID", record_id);
       ("Title", title);
       ("OriginalLanguage", original_language);
       ("DetectedLanguage", dl);
       ("DetectedCode", dc);
       ("Confidence", PStr (py_str c));
       ("Transliteration", tl);
       ("Translation", tr) ].
Proof.
  intros H1 H2 H3 H4 H5.
  unfold build_item, rbind, subscript.
  rewrite H1, H2, H3, H4, H5. reflexivity.
Qed.

Lemma build_item_needs_keys (record_id title original_language data : pyval) :
  has_required_keys data = false ->
  exists e, build_item record_id title original_language data = Raise e.
Proof.
  unfold has_required_keys, build_item, rbind, subscript.
  destruct data; try (intros _; eexists; reflexivity).
  unfold required_keys, forallb, has_field.
  repeat match goal with
         | |- context [dict_lookup ?d ?k] => destruct (dict_lookup d k)
         end; simpl; intros H; try discriminate H; eexists; reflexivity.
Qed.

Lemma build_item_has_keys (record_id title original_language data : pyval) :
  has_required_keys data = true ->
  exists item, build_item record_id title original_language data = Ok item.
Proof.
  unfold has_required_keys, build_item, rbind, subscript.
  destruct data; try discriminate.
  unfold required_keys, forallb, has_field.
  repeat match goal with
         | |- context [dict_lookup ?d ?k] => destruct (dict_lookup d k)
         end; simpl; intros H; try discriminate H; eexists; reflexivity.
Qed.

(** The handler on a well-formed request, up to the lookup. *)
Lemma handler_try_valid (d : dict) (w : world) :
  truthy (dict_get d "RecordID") = true ->
  truthy (dict_get d "Title") = true ->
  handler_try E (PDict d) w =
  (record <- get_record E (dict_get d "RecordID") (dict_get d "Title") ;;
   if truthy record then
     found <- lift (json_dumps (found_body record)) ;;
     ret {| statusCode := 200; body := found |}
   else
     openai_data <- process_with_openai E (dict_get d "Title") ;;
     store_record E (dict_get d "RecordID") (dict_get d "Title")
                  (dict_get d "OriginalLanguage") openai_data ;;;
     ret {| statusCode := 200; body := stored_body openai_data |}) w.
Proof.
  intros Hr Ht. unfold handler_try, bind at 1 2 3, lift, method_get.
  rewrite Hr, Ht. reflexivity.
Qed.

Lemma handler_try_invalid (d : dict) (w : world) :
  truthy (dict_get d "RecordID") = false \/ truthy (dict_get d "Title") = false ->
  handler_try E (PDict d) w =
  (Ok {| statusCode := 400; body := error_body "RecordID and Title are required." |}, w).
Proof.
  intros H. unfold handler_try, bind, lift, method_get.
  destruct H as [H|H]; rewrite H; [|rewrite orb_true_r]; reflexivity.
Qed.

Lemma handler_try_not_dict (event : pyval) (w : world) :
  (forall d, event <> PDict d) ->
  handler_try E event w =
  (Raise (AttributeError ("'" ++ type_name event ++ "' object has no attribute 'get'")), w).
Proof.
  intros H. destruct event; try reflexivity. exfalso. eapply H. reflexivity.
Qed.

End Runs.

(** ** The table *)

Lemma tbl_find_has_key (record_id title : pyval) (t : list dict) (item : dict) :
  tbl_find record_id title t = Some item -> has_key record_id title item = true.
Proof. intros H. apply find_some in H. apply H. Qed.

(** An item found under a key holds its key attributes, so it is not the
    empty dict: [if record:] takes it for a record. *)
Lemma tbl_find_truthy (record_id title : pyval) (t : list dict) (item : dict) :
  tbl_find record_id title t = Some item -> truthy (PDict item) = true.
Proof.
  intros H. apply tbl_find_has_key in H.
  destruct item; [discriminate H | reflexivity].
Qed.

Lemma tbl_find_put (item : dict) (t : list dict) :
  key_eqb (dict_get item "RecordID") (dict_get item "RecordID") = true ->
  key_eqb (dict_get item "Title") (dict_get item "Title") = true ->
  dict_lookup item "RecordID" <> None ->
  dict_lookup item "Title" <> None ->
  tbl_find (dict_get item "RecordID") (dict_get item "Title") (tbl_put item t) = Some item.
Proof.
  intros Hr Ht Nr Nt. unfold tbl_find, tbl_put. simpl.
  unfold has_key at 1. unfold dict_get in *.
  destruct (dict_lookup item "RecordID"); [|congruence].
  destruct (dict_lookup item "Title"); [|congruence].
  rewrite Hr, Ht. reflexivity.
Qed.

(** ** The handler, path by path *)

Section Paths.
Context {R : Runtime}.
Variable E : env.
Variable d : dict.
Variable w : world.

Let record_id := dict_get d "RecordID".
Let title := dict_get d "Title".
Let original_language := dict_get d "OriginalLanguage".

Hypothesis valid_record_id : truthy record_id = true.
Hypothesis valid_title : truthy title = true.

Lemma handler_try_lookup_fails (e : exn) :
  get_item_fault E record_id title = Some e ->
  handler_try E (PDict d) w =
  (Raise (store_exception e), log_call (GetItemCall record_id title) w).
Proof.
  intros Hf. rewrite handler_try_valid by assumption.
  unfold bind at 1. rewrite get_record_run.
  fold record_id title. rewrite Hf. reflexivity.
Qed.

(** A hit, up to [json.dumps] of the record as it was read back. *)
Lemma handler_try_found (item : dict) :
  get_item_fault E record_id title = None ->
  tbl_find record_id title (table w) = Some item ->
  handler_try E (PDict d) w =
  (if holds_number (PDict item)
   then Raise (TypeError "Object of type Decimal is not JSON serializable")
   else Ok {| statusCode := 200; body := found_body (PDict (read_back_item item)) |},
   log_call (GetItemCall record_id title) w).
Proof.
  intros Hf Hfind. rewrite handler_try_valid by assumption.
  unfold bind at 1. rewrite get_record_run.
  fold record_id title. rewrite Hf, Hfind.
  rewrite truthy_read_back_item, (tbl_find_truthy _ _ _ _ Hfind).
  unfold bind, lift, ret.
  rewrite json_dumps_found_body, holds_decimal_read_back_item.
  destruct (holds_number (PDict item)); reflexivity.
Qed.

Lemma handler_try_hit (item : dict) :
  get_item_fault E record_id title = None ->
  tbl_find record_id title (table w) = Some item ->
  holds_number (PDict item) = false ->
  handler_try E (PDict d) w =
  (Ok {| statusCode := 200; body := found_body (PDict item) |},
   log_call (GetItemCall record_id title) w).
Proof.
  intros Hf Hfind Hplain. rewrite (handler_try_found item Hf Hfind), Hplain.
  rewrite (read_back_item_fixed item Hplain). reflexivity.
Qed.

Lemma handler_try_hit_not_serialised (item : dict) :
  get_item_fault E record_id title = None ->
  tbl_find record_id title (table w) = Some item ->
  holds_number (PDict item) = true ->
  handler_try E (PDict d) w =
  (Raise (TypeError "Object of type Decimal is not JSON serializable"),
   log_call (GetItemCall record_id title) w).
Proof.
  intros Hf Hfind Hnumber. rewrite (handler_try_found item Hf Hfind), Hnumber.
  reflexivity.
Qed.

Lemma handler_try_miss :
  get_item_fault E record_id title = None ->
  tbl_find record_id title (table w) = None ->
  handler_try E (PDict d) w =
  let w2 := {| table := table w;
               log := log w ++ [GetItemCall record_id title; ChatCompletionCall title] |} in
  match chat_reply E title with
  | Raise e => (Raise (analysis_exception e), w2)
  | Ok data =>
      match build_item record_id title original_language data with
      | Raise e => (Raise e, w2)
      | Ok item =>
          match put_item_fault E item with
          | Some e =>
              (Raise (store_exception e),
               {| table := table w;
                  log := log w ++ [GetItemCall record_id title;
                                   ChatCompletionCall title;
                                   PutItemCall item] |})
          | None =>
              (Ok {| statusCode := 200; body := stored_body data |},
               {| table := tbl_put item (table w);
                  log := log w ++ [GetItemCall record_id title;
                                   ChatCompletionCall title;
                                   PutItemCall item] |})
          end
      end
  end.
Proof.
  intros Hf Hfind. rewrite handler_try_valid by assumption.
  unfold bind at 1. rewrite get_record_run.
  fold record_id title original_language. rewrite Hf, Hfind.
  change (truthy PNone) with false. cbv iota.
  unfold bind at 1. rewrite process_with_openai_run.
  destruct (chat_reply E title) as [data|e].
  - unfold bind. rewrite store_record_run.
    destruct (build_item record_id title original_language data) as [item|e] eqn:Hb.
    + destruct (put_item_fault E item) as [e|];
        unfold log_call, ret; simpl; rewrite <- ?app_assoc; reflexivity.
    + rewrite (build_item_exception _ _ _ _ _ Hb).
      unfold log_call; simpl; rewrite <- ?app_assoc; reflexivity.
  - unfold log_call; simpl; rewrite <- ?app_assoc; reflexivity.
Qed.

End Paths.

(** ** The outermost boundary *)

Lemma lambda_handler_ok {R : Runtime} (E : env) (event : pyval) (w w' : world)
      (r : response) :
  handler_try E event w = (Ok r, w') -> lambda_handler E event w = (r, w').
Proof. intros H. unfold lambda_handler. rewrite H. reflexivity. Qed.

Lemma lambda_handler_raise {R : Runtime} (E : env) (event : pyval) (w w' : world)
      (e : exn) :
  handler_try E event w = (Raise e, w') ->
  lambda_handler E event w =
  ({| statusCode := 501; body := error_body (str_exn e) |}, w').
Proof. intros H. unfold lambda_handler. rewrite H. reflexivity. Qed.

Lemma absent_or_empty_falsy (d : dict) (k : string) :
  absent_or_empty d k -> truthy (dict_get d k) = false.
Proof. unfold dict_get. intros [H|H]; rewrite H; reflexivity. Qed.

(** ** Validation *)

(** C4: when [RecordID] or [Title] is absent or empty, the handler answers
    with status 400 and the body [{"error": "RecordID and Title are
    required."}]; the world it returns is the one it received, so neither the
    table nor the chat endpoint was called.  The status differs from the one
    every raised exception ends in, which is 501. *)
Theorem invalid_input_rejected {R : Runtime} (E : env) (d : dict) (w : world) :
  absent_or_empty d "RecordID" \/ absent_or_empty d "Title" ->
  lambda_handler E (PDict d) w =
  ({| statusCode := 400; body := error_body "RecordID and Title are required." |}, w)
  /\ (forall E' event' w' e,
        fst (handler_try E' event' w') = Raise e ->
        statusCode (fst (lambda_handler E' event' w')) = 501%Z).
Proof.
  intros H. split.
  - apply lambda_handler_ok, handler_try_invalid.
    destruct H as [H|H]; [left|right]; apply absent_or_empty_falsy, H.
  - intros E' event' w' e He.
    destruct (handler_try E' event' w') as [r' w''] eqn:Hrun.
    simpl in He. subst r'.
    rewrite (lambda_handler_raise _ _ _ _ _ Hrun). reflexivity.
Qed.

Lemma invalid_input_rejected_witness :
  absent_or_empty [("RecordID", PStr "42")] "Title"
  /\ lambda_handler (R := sample_runtime) env42 event_no_title empty_world =
     ({| statusCode := 400; body := error_body "RecordID and Title are required." |},
      empty_world).
Proof.
  assert (H : absent_or_empty [("RecordID", PStr "42")] "Title") by (left; reflexivity).
  split; [exact H|].
  exact (proj1 (invalid_input_rejected (R := sample_runtime) env42
                  [("RecordID", PStr "42")] empty_world (or_intror H))).
Defined.

(** ** The hit path *)

Lemma lambda_handler_hit {R : Runtime} (E : env) (d : dict) (w : world) (item : dict) :
  truthy (dict_get d "RecordID") = true ->
  truthy (dict_get d "Title") = true ->
  get_item_fault E (dict_get d "RecordID") (dict_get d "Title") = None ->
  tbl_find (dict_get d "RecordID") (dict_get d "Title") (table w) = Some item ->
  holds_number (PDict item) = false ->
  lambda_handler E (PDict d) w =
  ({| statusCode := 200; body := found_body (PDict item) |},
   log_call (GetItemCall (dict_get d "RecordID") (dict_get d "Title")) w).
Proof.
  intros Hr Ht Hf Hfind Hplain.
  apply lambda_handler_ok, handler_try_hit; assumption.
Qed.

Lemma lambda_handler_hit_not_serialised {R : Runtime} (E : env) (d : dict) (w : world)
      (item : dict) :
  truthy (dict_get d "RecordID") = true ->
  truthy (dict_get d "Title") = true ->
  get_item_fault E (dict_get d "RecordID") (dict_get d "Title") = None ->
  tbl_find (dict_get d "RecordID") (dict_get d "Title") (table w) = Some item ->
  holds_number (PDict item) = true ->
  lambda_handler E (PDict d) w =
  ({| statusCode := 501;
      body := error_body "Object of type Decimal is not JSON serializable" |},
   log_call (GetItemCall (dict_get d "RecordID") (dict_get d "Title")) w).
Proof.
  intros Hr Ht Hf Hfind Hnumber.
  apply lambda_handler_raise with (e := TypeError _).
  exact (handler_try_hit_not_serialised E d w Hr Ht item Hf Hfind Hnumber).
Qed.

(** C2: the code does not return every record it finds.  When the record the
    table holds under the request's key holds a number at any depth (an
    integer [RecordID], a numeric field of an earlier reply), the client
    reads it back as a Decimal, [json.dumps] raises on it inside the [try],
    and the handler answers with status 501 and the message of that
    [TypeError] instead of status 200 and the record.  The lookup is the only
    call made and the table is left as it was. *)
Theorem hit_on_record_with_number_ends_in_501 {R : Runtime} (E : env) (d : dict)
        (w : world) (item : dict) :
  truthy (dict_get d "RecordID") = true ->
  truthy (dict_get d "Title") = true ->
  get_item_fault E (dict_get d "RecordID") (dict_get d "Title") = None ->
  tbl_find (dict_get d "RecordID") (dict_get d "Title") (table w) = Some item ->
  holds_number (PDict item) = true ->
  lambda_handler E (PDict d) w =
  ({| statusCode := 501;
      body := PDict [("error", PStr "Object of type Decimal is not JSON serializable")] |},
   {| table := table w;
      log := log w ++ [GetItemCall (dict_get d "RecordID") (dict_get d "Title")] |}).
Proof.
  intros Hr Ht Hf Hfind Hnumber.
  exact (lambda_handler_hit_not_serialised E d w item Hr Ht Hf Hfind Hnumber).
Qed.

Lemma hit_on_record_with_number_ends_in_501_witness :
  tbl_find (PStr "11") (PStr "1984") [item1984] = Some item1984
  /\ lambda_handler (R := sample_runtime) env7 event1984
                    {| table := [item1984]; log := [] |} =
     ({| statusCode := 501;
         body := PDict [("error", PStr "Object of type Decimal is not JSON serializable")] |},
      {| table := [item1984];
         log := [GetItemCall (PStr "11") (PStr "1984")] |}).
Proof.
  split; [reflexivity|].
  apply (hit_on_record_with_number_ends_in_501 (R := sample_runtime) env7
           [ ("RecordID", PStr "11"); ("Title", PStr "1984") ]
           {| table := [item1984]; log := [] |} item1984);
    reflexivity.
Defined.

(** X14: when the record the table holds under the request's key holds no
    number and the table answers the lookup, every one of any number of
    successive invocations returns status 200 with the body
    [{"message": "Record found.", "data": record}], the record being the one
    stored, unchanged; the table is left as it was, and the only calls made
    are the lookups, so the chat endpoint is never invoked. *)
Theorem hit_returns_stored_record {R : Runtime} (Es : list env) (d : dict)
        (w : world) (item : dict) :
  truthy (dict_get d "RecordID") = true ->
  truthy (dict_get d "Title") = true ->
  tbl_find (dict_get d "RecordID") (dict_get d "Title") (table w) = Some item ->
  holds_number (PDict item) = false ->
  Forall (fun E => get_item_fault E (dict_get d "RecordID") (dict_get d "Title") = None) Es ->
  invoke_all Es (PDict d) w =
  (repeat {| statusCode := 200;
             body := PDict [("message", PStr "Record found."); ("data", PDict item)] |}
          (length Es),
   {| table := table w;
      log := log w ++ repeat (GetItemCall (dict_get d "RecordID") (dict_get d "Title"))
                            (length Es) |}).
Proof.
  intros Hr Ht Hfind Hplain HEs. revert w Hfind.
  induction HEs as [|E Es' HE _ IH]; intros w Hfind.
  - simpl. rewrite app_nil_r. destruct w; reflexivity.
  - cbn [invoke_all].
    rewrite (lambda_handler_hit E d w item Hr Ht HE Hfind Hplain).
    rewrite (IH (log_call _ w) Hfind).
    simpl. rewrite <- app_assoc. reflexivity.
Qed.

Lemma hit_returns_stored_record_witness :
  invoke_all (R := sample_runtime) [env7; env42; env_not_json] event7
             {| table := [item7]; log := [] |} =
  (repeat {| statusCode := 200;
             body := PDict [("message", PStr "Record found."); ("data", PDict item7)] |} 3,
   {| table := [item7];
      log := repeat (GetItemCall (PStr "7") (PStr "La Vita è Bella")) 3 |}).
Proof.
  apply (hit_returns_stored_record (R := sample_runtime)
           [env7; env42; env_not_json]
           [ ("RecordID", PStr "7"); ("Title", PStr "La Vita è Bella");
             ("OriginalLanguage", PStr "Italian") ]
           {| table := [item7]; log := [] |} item7).
  - reflexivity.
  - reflexivity.
  - reflexivity.
  - reflexivity.
  - repeat constructor.
Defined.

(** ** The miss path *)

Section Miss.
Context {R : Runtime}.
Variable E : env.
Variable d : dict.
Variable w : world.

Let record_id := dict_get d "RecordID".
Let title := dict_get d "Title".
Let original_language := dict_get d "OriginalLanguage".

Hypothesis valid_record_id : truthy record_id = true.
Hypothesis valid_title : truthy title = true.
Hypothesis lookup_answers : get_item_fault E record_id title = None.
Hypothesis lookup_absent : tbl_find record_id title (table w) = None.

Let looked_up_and_asked : world :=
  {| table := table w;
     log := log w ++ [GetItemCall record_id title; ChatCompletionCall title] |}.

Lemma miss_analysis_fails (e : exn) :
  chat_reply E title = Raise e ->
  lambda_handler E (PDict d) w =
  ({| statusCode := 501; body := error_body (str_exn (analysis_exception e)) |},
   looked_up_and_asked).
Proof.
  intros Hc. apply lambda_handler_raise.
  rewrite handler_try_miss by assumption.
  fold record_id title. cbv zeta. rewrite Hc. reflexivity.
Qed.

Lemma miss_build_fails (data : pyval) (e : exn) :
  chat_reply E title = Ok data ->
  build_item record_id title original_language data = Raise e ->
  lambda_handler E (PDict d) w =
  ({| statusCode := 501; body := error_body (str_exn e) |}, looked_up_and_asked).
Proof.
  intros Hc Hb. apply lambda_handler_raise.
  rewrite handler_try_miss by assumption.
  fold record_id title original_language. cbv zeta. rewrite Hc, Hb. reflexivity.
Qed.

Lemma miss_put_fails (data : pyval) (item : dict) (e : exn) :
  chat_reply E title = Ok data ->
  build_item record_id title original_language data = Ok item ->
  put_item_fault E item = Some e ->
  lambda_handler E (PDict d) w =
  ({| statusCode := 501; body := error_body (store_error_message e) |},
   {| table := table w;
      log := log w ++ [GetItemCall record_id title;
                       ChatCompletionCall title;
                       PutItemCall item] |}).
Proof.
  intros Hc Hb Hp. rewrite <- str_store_exception. apply lambda_handler_raise.
  rewrite handler_try_miss by assumption.
  fold record_id title original_language. cbv zeta. rewrite Hc, Hb, Hp. reflexivity.
Qed.

Lemma miss_stored (data : pyval) (item : dict) :
  chat_reply E title = Ok data ->
  build_item record_id title original_language data = Ok item ->
  put_item_fault E item = None ->
  lambda_handler E (PDict d) w =
  ({| statusCode := 200; body := stored_body data |},
   {| table := tbl_put item (table w);
      log := log w ++ [GetItemCall record_id title;
                       ChatCompletionCall title;
                       PutItemCall item] |}).
Proof.
  intros Hc Hb Hp. apply lambda_handler_ok.
  rewrite handler_try_miss by assumption.
  fold record_id title original_language. cbv zeta. rewrite Hc, Hb, Hp. reflexivity.
Qed.

End Miss.

(** The item of a successful [build_item], field by field. *)
Lemma build_item_shape {R : Runtime} (record_id title original_language data : pyval)
      (item : dict) :
  build_item record_id title original_language data = Ok item ->
  exists dl dc c tl tr,
    subscript data "DetectedLanguage" = Ok dl
    /\ subscript data "ISO639LanguageCode" = Ok dc
    /\ subscript data "Confidence" = Ok c
    /\ subscript data "Transliteration" = Ok tl
    /\ subscript data "Translation" = Ok tr
    /\ item = [ ("RecordID", record_id);
                ("Title", title);
                ("OriginalLanguage", original_language);
                ("DetectedLanguage", dl);
                ("DetectedCode", dc);
                ("Confidence", PStr (py_str c));
                ("Transliteration", tl);
                ("Translation", tr) ].
Proof.
  unfold build_item, rbind.
  destruct (subscript data "DetectedLanguage") as [dl|]; [|discriminate].
  destruct (subscript data "ISO639LanguageCode") as [dc|]; [|discriminate].
  destruct (subscript data "Confidence") as [c|]; [|discriminate].
  destruct (subscript data "Transliteration") as [tl|]; [|discriminate].
  destruct (subscript data "Translation") as [tr|]; [|discriminate].
  intros H. injection H as <-.
  exists dl, dc, c, tl, tr. repeat split; reflexivity.
Qed.

(** C1, as the code has it: on a miss with a successful analysis and a
    successful write, the handler answers with status 200, the message
    "Record processed and stored." and, as data, the parsed reply of the
    analysis exactly as [process_with_openai] returned it.  The record it
    wrote to the table is a different object: the request's [RecordID],
    [Title] and [OriginalLanguage], then [DetectedLanguage], [DetectedCode]
    (the reply's [ISO639LanguageCode]), [Confidence] (the [str] of the reply's
    value), [Transliteration] and [Translation]. *)
Theorem miss_returns_analysis_and_stores_record {R : Runtime} (E : env) (d : dict)
        (w : world) (reply : dict) (dl dc c tl tr : pyval) :
  let record_id := dict_get d "RecordID" in
  let title := dict_get d "Title" in
  let item := [ ("RecordID", record_id);
                ("Title", title);
                ("OriginalLanguage", dict_get d "OriginalLanguage");
                ("DetectedLanguage", dl);
                ("DetectedCode", dc);
                ("Confidence", PStr (py_str c));
                ("Transliteration", tl);
                ("Translation", tr) ] in
  truthy record_id = true ->
  truthy title = true ->
  get_item_fault E record_id title = None ->
  tbl_find record_id title (table w) = None ->
  chat_reply E title = Ok (PDict reply) ->
  dict_lookup reply "DetectedLanguage" = Some dl ->
  dict_lookup reply "ISO639LanguageCode" = Some dc ->
  dict_lookup reply "Confidence" = Some c ->
  dict_lookup reply "Transliteration" = Some tl ->
  dict_lookup reply "Translation" = Some tr ->
  put_item_fault E item = None ->
  lambda_handler E (PDict d) w =
  ({| statusCode := 200;
      body := PDict [("message", PStr "Record processed and stored.");
                     ("data", PDict reply)] |},
   {| table := tbl_put item (table w);
      log := log w ++ [GetItemCall record_id title;
                       ChatCompletionCall title;
                       PutItemCall item] |}).
Proof.
  intros record_id title item Hr Ht Hf Hfind Hc H1 H2 H3 H4 H5 Hp.
  apply (miss_stored E d w Hr Ht Hf Hfind (PDict reply) item Hc); [|exact Hp].
  apply build_item_fields; assumption.
Qed.

Lemma miss_returns_analysis_and_stores_record_witness :
  lambda_handler (R := sample_runtime) env7 event7 empty_world =
  ({| statusCode := 200;
      body := PDict [("message", PStr "Record processed and stored.");
                     ("data", analysis7)] |},
   {| table := [item7];
      log := [ GetItemCall (PStr "7") (PStr "La Vita è Bella");
               ChatCompletionCall (PStr "La Vita è Bella");
               PutItemCall item7 ] |}).
Proof.
  apply (miss_returns_analysis_and_stores_record (R := sample_runtime) env7
           [ ("RecordID", PStr "7"); ("Title", PStr "La Vita è Bella");
             ("OriginalLanguage", PStr "Italian") ]
           empty_world
           [ ("DetectedLanguage", PStr "Italian");
             ("ISO639LanguageCode", PStr "it");
             ("Confidence", PFloat "0.95");
             ("Transliteration", PStr "La Vita e Bella");
             ("Translation", PStr "Life Is Beautiful") ]
           (PStr "Italian") (PStr "it") (PFloat "0.95")
           (PStr "La Vita e Bella") (PStr "Life Is Beautiful"));
    reflexivity.
Defined.

(** C1, as the claim has it, fails in the scenario of the specification: the
    data of the response is the reply of the analysis, which has no
    [RecordID] and no [DetectedCode] and carries [Confidence] as a number,
    while the record written is [item7]. *)
Lemma miss_data_is_not_the_record :
  lambda_handler (R := sample_runtime) env7 event7 empty_world =
  ({| statusCode := 200; body := stored_body analysis7 |},
   {| table := [item7];
      log := [ GetItemCall (PStr "7") (PStr "La Vita è Bella");
               ChatCompletionCall (PStr "La Vita è Bella");
               PutItemCall item7 ] |})
  /\ analysis7 <> PDict item7
  /\ subscript analysis7 "RecordID" = Raise (KeyError "RecordID")
  /\ subscript analysis7 "DetectedCode" = Raise (KeyError "DetectedCode")
  /\ subscript analysis7 "Confidence" = Ok (PFloat "0.95")
  /\ subscript (PDict item7) "Confidence" = Ok (PStr "0.95").
Proof.
  split; [reflexivity|].
  split; [discriminate|].
  repeat split.
Qed.

(** C9: when the request has no [OriginalLanguage], every miss that ends in a
    write hands the table an item that holds the attribute
    [OriginalLanguage], with value [None]. *)
Theorem absent_original_language_is_stored_as_none {R : Runtime} (E : env) (d : dict)
        (w : world) (data : pyval) :
  let record_id := dict_get d "RecordID" in
  let title := dict_get d "Title" in
  dict_lookup d "OriginalLanguage" = None ->
  truthy record_id = true ->
  truthy title = true ->
  get_item_fault E record_id title = None ->
  tbl_find record_id title (table w) = None ->
  chat_reply E title = Ok data ->
  has_required_keys data = true ->
  (forall item,
      build_item record_id title (dict_get d "OriginalLanguage") data = Ok item ->
      put_item_fault E item = None) ->
  exists item,
    snd (lambda_handler E (PDict d) w) =
    {| table := tbl_put item (table w);
       log := log w ++ [GetItemCall record_id title;
                        ChatCompletionCall title;
                        PutItemCall item] |}
    /\ dict_lookup item "OriginalLanguage" = Some PNone.
Proof.
  intros record_id title Hol Hr Ht Hf Hfind Hc Hk Hp.
  destruct (build_item_has_keys record_id title (dict_get d "OriginalLanguage") data Hk)
    as [item Hb].
  exists item. split.
  - rewrite (miss_stored E d w Hr Ht Hf Hfind data item Hc Hb (Hp item Hb)). reflexivity.
  - destruct (build_item_shape _ _ _ _ _ Hb) as (dl & dc & c & tl & tr & _ & _ & _ & _ & _ & ->).
    unfold dict_get. rewrite Hol. reflexivity.
Qed.

Lemma absent_original_language_is_stored_as_none_witness :
  exists item,
    snd (lambda_handler (R := sample_runtime) env42 event42 empty_world) =
    {| table := tbl_put item [];
       log := [ GetItemCall (PStr "42") (PStr "Amelie");
                ChatCompletionCall (PStr "Amelie");
                PutItemCall item ] |}
    /\ dict_lookup item "OriginalLanguage" = Some PNone.
Proof.
  apply (absent_original_language_is_stored_as_none (R := sample_runtime) env42
           [ ("RecordID", PStr "42"); ("Title", PStr "Amelie") ]
           empty_world analysis42);
    try reflexivity.
Defined.

(** C6: when the analysis succeeded and the write it led to raises, the
    handler answers with status 501 and a body that holds only the error
    message of the store failure; the reply of the analysis is in no part of
    the response, and the table is left as it was. *)
Theorem store_failure_discards_result {R : Runtime} (E : env) (d : dict)
        (w : world) (data : pyval) (item : dict) (e : exn) :
  let record_id := dict_get d "RecordID" in
  let title := dict_get d "Title" in
  truthy record_id = true ->
  truthy title = true ->
  get_item_fault E record_id title = None ->
  tbl_find record_id title (table w) = None ->
  chat_reply E title = Ok data ->
  build_item record_id title (dict_get d "OriginalLanguage") data = Ok item ->
  put_item_fault E item = Some e ->
  lambda_handler E (PDict d) w =
  ({| statusCode := 501; body := PDict [("error", PStr (store_error_message e))] |},
   {| table := table w;
      log := log w ++ [GetItemCall record_id title;
                       ChatCompletionCall title;
                       PutItemCall item] |}).
Proof.
  intros record_id title Hr Ht Hf Hfind Hc Hb Hp.
  exact (miss_put_fails E d w Hr Ht Hf Hfind data item e Hc Hb Hp).
Qed.

Lemma store_failure_discards_result_witness :
  lambda_handler (R := sample_runtime) env7_put_fails event7 empty_world =
  ({| statusCode := 501;
      body := PDict [("error", PStr "DynamoDB error: Throughput exceeded")] |},
   {| table := [];
      log := [ GetItemCall (PStr "7") (PStr "La Vita è Bella");
               ChatCompletionCall (PStr "La Vita è Bella");
               PutItemCall item7 ] |}).
Proof.
  apply (store_failure_discards_result (R := sample_runtime) env7_put_fails
           [ ("RecordID", PStr "7"); ("Title", PStr "La Vita è Bella");
             ("OriginalLanguage", PStr "Italian") ]
           empty_world analysis7 item7
           (ClientError
              "An error occurred (ProvisionedThroughputExceededException) when calling the PutItem operation: Throughput exceeded"
              "Throughput exceeded"));
    reflexivity.
Defined.

(** ** Malformed replies *)

(** C3, as the code has it: on a miss, a reply that is not JSON, or that is
    JSON without one of the five required keys, ends in a 501 error response,
    and the table is neither called for a write nor changed.  Only the reply
    that is not JSON makes [process_with_openai] fail; a JSON reply is
    returned by it whatever its keys, and the failure then comes from the
    lookup of the missing key while the item is built, before [put_item]. *)
Theorem malformed_reply_ends_without_write {R : Runtime} (E : env) (d : dict)
        (w : world) :
  let record_id := dict_get d "RecordID" in
  let title := dict_get d "Title" in
  truthy record_id = true ->
  truthy title = true ->
  get_item_fault E record_id title = None ->
  tbl_find record_id title (table w) = None ->
  malformed_reply (chat_reply E title) ->
  exists msg,
    lambda_handler E (PDict d) w =
    ({| statusCode := 501; body := error_body msg |},
     {| table := table w;
        log := log w ++ [GetItemCall record_id title; ChatCompletionCall title] |})
    /\ fst (process_with_openai E title (log_call (GetItemCall record_id title) w)) =
       match chat_reply E title with
       | Ok v => Ok v
       | Raise _ =>
           Raise (Exception "Failed to parse the response from OpenAI. Ensure the response is in JSON format.")
       end
    /\ (forall v, chat_reply E title = Ok v ->
          exists e,
            build_item record_id title (dict_get d "OriginalLanguage") v = Raise e
            /\ msg = str_exn e).
Proof.
  intros record_id title Hr Ht Hf Hfind [[m Hc]|[v [Hc Hk]]].
  - eexists. split; [|split].
    + exact (miss_analysis_fails E d w Hr Ht Hf Hfind _ Hc).
    + rewrite process_with_openai_run. fold title. rewrite Hc. reflexivity.
    + intros v Hv. fold title in Hv. congruence.
  - destruct (build_item_needs_keys record_id title (dict_get d "OriginalLanguage") v Hk)
      as [e Hb].
    exists (str_exn e). split; [|split].
    + exact (miss_build_fails E d w Hr Ht Hf Hfind v e Hc Hb).
    + rewrite process_with_openai_run. fold title. rewrite Hc. reflexivity.
    + intros v' Hv. fold title in Hv. rewrite Hc in Hv. injection Hv as <-.
      exists e. split; [exact Hb | reflexivity].
Qed.

Lemma malformed_reply_ends_without_write_witness :
  (exists msg,
     lambda_handler (R := sample_runtime) env_short event42 empty_world =
     ({| statusCode := 501; body := error_body msg |},
      {| table := [];
         log := [GetItemCall (PStr "42") (PStr "Amelie");
                 ChatCompletionCall (PStr "Amelie")] |})
     /\ fst (process_with_openai env_short (PStr "Amelie")
               (log_call (GetItemCall (PStr "42") (PStr "Amelie")) empty_world)) =
        Ok analysis_short
     /\ (forall v, Ok analysis_short = Ok v ->
           exists e,
             build_item (R := sample_runtime) (PStr "42") (PStr "Amelie") PNone v = Raise e
             /\ msg = str_exn e)).
Proof.
  apply (malformed_reply_ends_without_write (R := sample_runtime) env_short
           [ ("RecordID", PStr "42"); ("Title", PStr "Amelie") ] empty_world);
    try reflexivity.
  right. exists analysis_short. split; reflexivity.
Defined.

(** C3, as the claim has it, fails for a JSON reply that lacks [Translation]:
    the analysis client returns the reply and raises nothing; the error of
    the invocation is the [KeyError] of [store_record]. *)
Lemma short_reply_passes_the_analysis_client :
  has_required_keys analysis_short = false
  /\ fst (process_with_openai env_short (PStr "Amelie")
            (log_call (GetItemCall (PStr "42") (PStr "Amelie")) empty_world)) =
     Ok analysis_short
  /\ fst (store_record (R := sample_runtime) env_short (PStr "42") (PStr "Amelie") PNone
            analysis_short empty_world) =
     Raise (KeyError "Translation")
  /\ lambda_handler (R := sample_runtime) env_short event42 empty_world =
     ({| statusCode := 501; body := error_body "'Translation'" |},
      {| table := [];
         log := [GetItemCall (PStr "42") (PStr "Amelie");
                 ChatCompletionCall (PStr "Amelie")] |}).
Proof. repeat split. Qed.

(** ** Confidence *)

(** C5, as the code has it: [process_with_openai] returns the reply as parsed,
    so [Confidence] travels as whatever value the reply holds (a float when
    the service sent a number), and the response of the miss carries it so.
    [store_record] alone turns it into text, with [str], in the item it hands
    to the table; a later lookup of the same key that the table answers
    returns that item as the client reads it back, and its [Confidence] is
    still exactly that text. *)
Theorem confidence_is_stringified_when_stored {R : Runtime} (E E' : env) (d : dict)
        (w : world) (reply : dict) (c : pyval) :
  let record_id := dict_get d "RecordID" in
  let title := dict_get d "Title" in
  truthy record_id = true ->
  truthy title = true ->
  get_item_fault E record_id title = None ->
  tbl_find record_id title (table w) = None ->
  chat_reply E title = Ok (PDict reply) ->
  has_required_keys (PDict reply) = true ->
  dict_lookup reply "Confidence" = Some c ->
  (forall item,
      build_item record_id title (dict_get d "OriginalLanguage") (PDict reply) = Ok item ->
      put_item_fault E item = None) ->
  key_eqb record_id record_id = true ->
  key_eqb title title = true ->
  get_item_fault E' record_id title = None ->
  fst (process_with_openai E title (log_call (GetItemCall record_id title) w)) =
    Ok (PDict reply)
  /\ exists item,
       lambda_handler E (PDict d) w =
       ({| statusCode := 200; body := stored_body (PDict reply) |},
        {| table := tbl_put item (table w);
           log := log w ++ [GetItemCall record_id title;
                            ChatCompletionCall title;
                            PutItemCall item] |})
       /\ dict_lookup item "Confidence" = Some (PStr (py_str c))
       /\ fst (get_record E' record_id title (snd (lambda_handler E (PDict d) w))) =
          Ok (PDict (read_back_item item))
       /\ dict_lookup (read_back_item item) "Confidence" = Some (PStr (py_str c)).
Proof.
  intros record_id title Hr Ht Hf Hfind Hc Hk Hconf Hp Kr Kt Hf'.
  split.
  - rewrite process_with_openai_run. fold title. rewrite Hc. reflexivity.
  - destruct (build_item_has_keys record_id title (dict_get d "OriginalLanguage") _ Hk)
      as [item Hb].
    pose proof (miss_stored E d w Hr Ht Hf Hfind _ item Hc Hb (Hp item Hb)) as Hrun.
    fold record_id title in Hrun.
    exists item. split; [exact Hrun|].
    destruct (build_item_shape _ _ _ _ _ Hb)
      as (dl & dc & c' & tl & tr & _ & _ & H3 & _ & _ & Hitem).
    simpl in H3. rewrite Hconf in H3. injection H3 as <-.
    split; [|split].
    + rewrite Hitem. reflexivity.
    + rewrite Hrun, get_record_run. rewrite Hf'. cbn [snd fst table].
      assert (Hget : tbl_find record_id title (tbl_put item (table w)) = Some item).
      { subst item.
        apply (tbl_find_put
                 [ ("RecordID", record_id); ("Title", title);
                   ("OriginalLanguage", dict_get d "OriginalLanguage");
                   ("DetectedLanguage", dl); ("DetectedCode", dc);
                   ("Confidence", PStr (py_str c));
                   ("Transliteration", tl); ("Translation", tr) ]);
          try assumption; simpl; discriminate. }
      rewrite Hget. reflexivity.
    + rewrite Hitem. reflexivity.
Qed.

Lemma confidence_is_stringified_when_stored_witness :
  fst (process_with_openai env42 (PStr "Amelie")
         (log_call (GetItemCall (PStr "42") (PStr "Amelie")) empty_world)) =
    Ok analysis42
  /\ exists item,
       lambda_handler (R := sample_runtime) env42 event42 empty_world =
       ({| statusCode := 200; body := stored_body analysis42 |},
        {| table := tbl_put item [];
           log := [GetItemCall (PStr "42") (PStr "Amelie");
                   ChatCompletionCall (PStr "Amelie");
                   PutItemCall item] |})
       /\ dict_lookup item "Confidence" = Some (PStr "0.87")
       /\ fst (get_record env_not_json (PStr "42") (PStr "Amelie")
                 (snd (lambda_handler (R := sample_runtime) env42 event42 empty_world))) =
          Ok (PDict (read_back_item item))
       /\ dict_lookup (read_back_item item) "Confidence" = Some (PStr "0.87").
Proof.
  apply (confidence_is_stringified_when_stored (R := sample_runtime) env42 env_not_json
           [ ("RecordID", PStr "42"); ("Title", PStr "Amelie") ] empty_world
           [ ("DetectedLanguage", PStr "French");
             ("ISO639LanguageCode", PStr "fr");
             ("Confidence", PFloat "0.87");
             ("Transliteration", PStr "Amelie");
             ("Translation", PStr "Amelie") ]
           (PFloat "0.87"));
    try reflexivity.
Defined.

(** C5, as the claim has it, fails when the service sends the number 0.87:
    what the analysis client returns, and what the response of the miss
    carries, holds [Confidence] as a float, not as a string; only the item
    written holds the text. *)
Lemma confidence_leaves_the_client_as_a_number :
  fst (process_with_openai env42 (PStr "Amelie")
         (log_call (GetItemCall (PStr "42") (PStr "Amelie")) empty_world)) =
    Ok analysis42
  /\ subscript analysis42 "Confidence" = Ok (PFloat "0.87")
  /\ is_str (PFloat "0.87") = false
  /\ body (fst (lambda_handler (R := sample_runtime) env42 event42 empty_world)) =
     stored_body analysis42.
Proof. repeat split. Qed.

(** ** One invocation as a decision tree *)

Lemma world_eta (w : world) : {| table := table w; log := log w ++ [] |} = w.
Proof. destruct w. simpl. rewrite app_nil_r. reflexivity. Qed.

Lemma handler_try_outcome {R : Runtime} (E : env) (event : pyval) (w : world) :
  handler_try E event w =
  (fst (fst (outcome E event (table w))),
   {| table := snd (fst (outcome E event (table w)));
      log := log w ++ snd (outcome E event (table w)) |}).
Proof.
  destruct event as [| | | | | |d|];
    try (unfold outcome; cbn [fst snd]; rewrite world_eta; reflexivity).
  unfold outcome.
  destruct (truthy (dict_get d "RecordID")) eqn:Hr;
    [destruct (truthy (dict_get d "Title")) eqn:Ht|].
  - cbn [negb orb]. unfold lookup_result, analysis_result.
    destruct (get_item_fault E (dict_get d "RecordID") (dict_get d "Title")) as [e|] eqn:Hf.
    + rewrite (handler_try_lookup_fails E d w Hr Ht e Hf). reflexivity.
    + destruct (tbl_find (dict_get d "RecordID") (dict_get d "Title") (table w))
        as [item|] eqn:Hfind.
      * rewrite (handler_try_found E d w Hr Ht item Hf Hfind).
        rewrite truthy_read_back_item, (tbl_find_truthy _ _ _ _ Hfind).
        rewrite json_dumps_found_body, holds_decimal_read_back_item.
        destruct (holds_number (PDict item)); reflexivity.
      * rewrite (handler_try_miss E d w Hr Ht Hf Hfind).
        change (truthy PNone) with false. cbv iota zeta.
        destruct (chat_reply E (dict_get d "Title")) as [data|e]; [|reflexivity].
        destruct (build_item (dict_get d "RecordID") (dict_get d "Title")
                    (dict_get d "OriginalLanguage") data) as [item|e]; [|reflexivity].
        destruct (put_item_fault E item); reflexivity.
  - rewrite handler_try_invalid by (right; assumption).
    cbn [negb orb fst snd]. rewrite world_eta. reflexivity.
  - rewrite handler_try_invalid by (left; assumption).
    cbn [negb orb fst snd]. rewrite world_eta. reflexivity.
Qed.

(** ** Order of the calls *)

(** C7: the calls an invocation makes are, in order, at most one lookup, then
    at most one chat completion, then at most one write; the chat completion
    is there only when the lookup returned nothing, and the write only when
    the analysis returned a value. *)
Theorem calls_are_sequential {R : Runtime} (E : env) (event : pyval) (w : world) :
  exists calls,
    log (snd (lambda_handler E event w)) = (log w ++ calls)%list
    /\ sequential E w calls.
Proof.
  exists (snd (outcome E event (table w))). split.
  - unfold lambda_handler. rewrite handler_try_outcome.
    destruct (fst (fst (outcome E event (table w)))); reflexivity.
  - destruct event as [| | | | | |d|]; try apply no_call.
    unfold outcome.
    destruct (negb (truthy (dict_get d "RecordID")) || negb (truthy (dict_get d "Title")));
      [apply no_call|].
    destruct (lookup_result E (dict_get d "RecordID") (dict_get d "Title") (table w))
      as [record|e] eqn:Hl; [|apply lookup_only].
    destruct (truthy record) eqn:Hrec; [apply lookup_only|].
    assert (Hget : fst (get_record E (dict_get d "RecordID") (dict_get d "Title") w) = Ok record)
      by (rewrite get_record_run; exact Hl).
    destruct (analysis_result E (dict_get d "Title")) as [data|e] eqn:Ha;
      [|eapply lookup_then_analysis; eassumption].
    destruct (build_item (dict_get d "RecordID") (dict_get d "Title")
                (dict_get d "OriginalLanguage") data) as [item|e];
      [|eapply lookup_then_analysis; eassumption].
    assert (Hp : fst (process_with_openai E (dict_get d "Title")
                        (log_call (GetItemCall (dict_get d "RecordID") (dict_get d "Title")) w))
                 = Ok data)
      by (rewrite process_with_openai_run; exact Ha).
    destruct (put_item_fault E item);
      eapply lookup_analysis_write; eassumption.
Qed.

(** ** Every outcome is a response *)


(** ** Determinism *)

(** C10, as the code has it: two invocations on the same event whose lookups
    return the same result, whose analyses return the same result and whose
    table answers writes alike return the same response and make the same
    calls, the item handed to the table included; either both leave their
    table as it was or both put the same item in it. *)
Theorem same_collaborators_same_outcome {R : Runtime} (E1 E2 : env) (event : pyval)
        (w1 w2 : world) :
  (forall record_id title,
      method_get event "RecordID" = Ok record_id ->
      method_get event "Title" = Ok title ->
      fst (get_record E1 record_id title w1) = fst (get_record E2 record_id title w2)) ->
  (forall title,
      method_get event "Title" = Ok title ->
      fst (process_with_openai E1 title w1) = fst (process_with_openai E2 title w2)) ->
  (forall item, put_item_fault E1 item = put_item_fault E2 item) ->
  fst (lambda_handler E1 event w1) = fst (lambda_handler E2 event w2)
  /\ (exists calls,
        log (snd (lambda_handler E1 event w1)) = (log w1 ++ calls)%list
        /\ log (snd (lambda_handler E2 event w2)) = (log w2 ++ calls)%list)
  /\ ((table (snd (lambda_handler E1 event w1)) = table w1
       /\ table (snd (lambda_handler E2 event w2)) = table w2)
      \/ (exists item,
            table (snd (lambda_handler E1 event w1)) = tbl_put item (table w1)
            /\ table (snd (lambda_handler E2 event w2)) = tbl_put item (table w2))).
Proof.
  intros Hl Ha Hp.
  assert (Hout : fst (fst (outcome E1 event (table w1))) = fst (fst (outcome E2 event (table w2)))
                 /\ snd (outcome E1 event (table w1)) = snd (outcome E2 event (table w2))
                 /\ ((snd (fst (outcome E1 event (table w1))) = table w1
                      /\ snd (fst (outcome E2 event (table w2))) = table w2)
                     \/ (exists item,
                           snd (fst (outcome E1 event (table w1))) = tbl_put item (table w1)
                           /\ snd (fst (outcome E2 event (table w2))) = tbl_put item (table w2)))).
  { destruct event as [| | | | | |d|]; try (repeat split; try reflexivity; left; split; reflexivity).
    specialize (Hl _ _ eq_refl eq_refl). specialize (Ha _ eq_refl).
    rewrite !get_record_run in Hl. rewrite !process_with_openai_run in Ha.
    cbn [fst] in Hl, Ha.
    unfold outcome.
    destruct (negb (truthy (dict_get d "RecordID")) || negb (truthy (dict_get d "Title")));
      [repeat split; try reflexivity; left; split; reflexivity|].
    unfold lookup_result, analysis_result. rewrite Hl.
    destruct (match get_item_fault E2 (dict_get d "RecordID") (dict_get d "Title") with
              | Some e => Raise (store_exception e)
              | None => _
              end) as [record|e];
      [|repeat split; try reflexivity; left; split; reflexivity].
    destruct (truthy record); [repeat split; try reflexivity; left; split; reflexivity|].
    rewrite Ha.
    destruct (match chat_reply E2 (dict_get d "Title") with
              | Ok v => Ok v
              | Raise e => _
              end) as [data|e];
      [|repeat split; try reflexivity; left; split; reflexivity].
    destruct (build_item _ _ _ data) as [item|e];
      [|repeat split; try reflexivity; left; split; reflexivity].
    rewrite Hp. destruct (put_item_fault E2 item).
    - repeat split; try reflexivity. left; split; reflexivity.
    - repeat split; try reflexivity. right. exists item. split; reflexivity. }
  destruct Hout as (Hres & Hcalls & Htables).
  unfold lambda_handler. rewrite !handler_try_outcome. rewrite Hres.
  destruct (fst (fst (outcome E2 event (table w2)))); cbn [fst snd table log].
  - split; [reflexivity|]. split; [|exact Htables].
    exists (snd (outcome E2 event (table w2))). rewrite Hcalls. split; reflexivity.
  - split; [reflexivity|]. split; [|exact Htables].
    exists (snd (outcome E2 event (table w2))). rewrite Hcalls. split; reflexivity.
Qed.

Lemma same_collaborators_same_outcome_witness :
  fst (lambda_handler (R := sample_runtime) env7 event7 empty_world) =
  fst (lambda_handler (R := sample_runtime) env7_elsewhere event7 world_elsewhere)
  /\ (exists calls,
        log (snd (lambda_handler (R := sample_runtime) env7 event7 empty_world)) =
        (log empty_world ++ calls)%list
        /\ log (snd (lambda_handler (R := sample_runtime) env7_elsewhere event7 world_elsewhere)) =
           (log world_elsewhere ++ calls)%list)
  /\ ((table (snd (lambda_handler (R := sample_runtime) env7 event7 empty_world)) =
       table empty_world
       /\ table (snd (lambda_handler (R := sample_runtime) env7_elsewhere event7 world_elsewhere)) =
          table world_elsewhere)
      \/ (exists item,
            table (snd (lambda_handler (R := sample_runtime) env7 event7 empty_world)) =
            tbl_put item (table empty_world)
            /\ table (snd (lambda_handler (R := sample_runtime) env7_elsewhere event7 world_elsewhere)) =
               tbl_put item (table world_elsewhere))).
Proof.
  apply (same_collaborators_same_outcome (R := sample_runtime) env7 env7_elsewhere
           event7 empty_world world_elsewhere).
  - intros record_id title Hr Ht.
    injection Hr as <-. injection Ht as <-. reflexivity.
  - intros title Ht. injection Ht as <-. reflexivity.
  - intros item. reflexivity.
Defined.

(** C10, as the claim has it, fails when only the write differs: the same
    event, the same empty lookup and the same reply of the analysis end in
    status 200 and a stored record under [env7], and in status 501 and no
    record under [env7_put_fails]. *)
Lemma write_outcome_decides_the_response :
  fst (get_record env7 (PStr "7") (PStr "La Vita è Bella") empty_world) =
  fst (get_record env7_put_fails (PStr "7") (PStr "La Vita è Bella") empty_world)
  /\ fst (process_with_openai env7 (PStr "La Vita è Bella") empty_world) =
     fst (process_with_openai env7_put_fails (PStr "La Vita è Bella") empty_world)
  /\ fst (lambda_handler (R := sample_runtime) env7 event7 empty_world) =
     {| statusCode := 200; body := stored_body analysis7 |}
  /\ fst (lambda_handler (R := sample_runtime) env7_put_fails event7 empty_world) =
     {| statusCode := 501; body := error_body "DynamoDB error: Throughput exceeded" |}
  /\ table (snd (lambda_handler (R := sample_runtime) env7 event7 empty_world)) = [item7]
  /\ table (snd (lambda_handler (R := sample_runtime) env7_put_fails event7 empty_world)) = [].
Proof. repeat split. Qed.

(** ** Every invocation follows one of the paths *)

Lemma lambda_handler_path {R : Runtime} (E : env) (event : pyval) (w : world) :
  path E w event (lambda_handler E event w).
Proof.
  destruct event as [|b|z|r|s|l|d|t];
    try (apply path_not_object; discriminate).
  destruct (truthy (dict_get d "RecordID")) eqn:Hr;
    [destruct (truthy (dict_get d "Title")) eqn:Ht|].
  - destruct (get_item_fault E (dict_get d "RecordID") (dict_get d "Title")) as [e|] eqn:Hf.
    + rewrite (lambda_handler_raise E _ w _ _ (handler_try_lookup_fails E d w Hr Ht e Hf)).
      rewrite str_store_exception. apply path_lookup_fails; assumption.
    + destruct (tbl_find (dict_get d "RecordID") (dict_get d "Title") (table w))
        as [item|] eqn:Hfind.
      * destruct (holds_number (PDict item)) eqn:Hnum.
        -- rewrite (lambda_handler_hit_not_serialised E d w item Hr Ht Hf Hfind Hnum).
           eapply path_hit_not_serialised; eassumption.
        -- rewrite (lambda_handler_hit E d w item Hr Ht Hf Hfind Hnum).
           apply path_hit; assumption.
      * destruct (chat_reply E (dict_get d "Title")) as [data|e] eqn:Hc.
        -- destruct (build_item (dict_get d "RecordID") (dict_get d "Title")
                       (dict_get d "OriginalLanguage") data) as [item|e] eqn:Hb.
           ++ destruct (put_item_fault E item) as [e|] eqn:Hp.
              ** rewrite (miss_put_fails E d w Hr Ht Hf Hfind data item e Hc Hb Hp).
                 eapply path_put_fails; eassumption.
              ** rewrite (miss_stored E d w Hr Ht Hf Hfind data item Hc Hb Hp).
                 eapply path_stored; eassumption.
           ++ rewrite (miss_build_fails E d w Hr Ht Hf Hfind data e Hc Hb).
              eapply path_build_fails; eassumption.
        -- rewrite (miss_analysis_fails E d w Hr Ht Hf Hfind e Hc).
           apply path_analysis_fails; assumption.
  - rewrite (lambda_handler_ok E _ w w _ (handler_try_invalid E d w (or_intror Ht))).
    apply path_invalid. right. exact Ht.
  - rewrite (lambda_handler_ok E _ w w _ (handler_try_invalid E d w (or_introl Hr))).
    apply path_invalid. left. exact Hr.
Qed.

(** Case analysis on a path, with the names used below. *)
Ltac on_path H :=
  destruct H as
    [ event Hobj
    | d Hfalsy
    | d e Hr Ht Hf
    | d item Hr Ht Hf Hfind Hplain
    | d item Hr Ht Hf Hfind Hnumber
    | d e Hr Ht Hf Hfind Hc
    | d data e Hr Ht Hf Hfind Hc Hb
    | d data item e Hr Ht Hf Hfind Hc Hb Hp
    | d data item Hr Ht Hf Hfind Hc Hb Hp ].

(** ** Keys and the table *)

Lemma key_eqb_eq (a b : pyval) : key_eqb a b = true -> a = b.
Proof.
  destruct a, b; simpl; try discriminate.
  - intros H. apply Z.eqb_eq in H. congruence.
  - intros H. apply String.eqb_eq in H. congruence.
Qed.

Lemma has_key_unique (r1 t1 r2 t2 : pyval) (item : dict) :
  has_key r1 t1 item = true -> has_key r2 t2 item = true -> r1 = r2 /\ t1 = t2.
Proof.
  unfold has_key.
  destruct (dict_lookup item "RecordID") as [r|]; [|discriminate].
  destruct (dict_lookup item "Title") as [t|]; [|discriminate].
  intros H1 H2.
  apply andb_true_iff in H1. apply andb_true_iff in H2.
  destruct H1 as [H1r H1t], H2 as [H2r H2t].
  apply key_eqb_eq in H1r, H1t, H2r, H2t. subst. split; reflexivity.
Qed.

(** Putting an item under a key the table does not hold removes nothing. *)
Lemma tbl_put_absent (item : dict) (t : list dict) :
  tbl_find (dict_get item "RecordID") (dict_get item "Title") t = None ->
  tbl_put item t = item :: t.
Proof.
  unfold tbl_find, tbl_put. intros H. f_equal.
  induction t as [|x t IH]; [reflexivity|].
  simpl in H |- *.
  destruct (has_key (dict_get item "RecordID") (dict_get item "Title") x);
    [discriminate|].
  simpl. f_equal. apply IH, H.
Qed.

Lemma build_item_key {R : Runtime} (record_id title original_language data : pyval)
      (item : dict) :
  build_item record_id title original_language data = Ok item ->
  dict_get item "RecordID" = record_id /\ dict_get item "Title" = title.
Proof.
  intros Hb.
  destruct (build_item_shape _ _ _ _ _ Hb) as (dl & dc & c & tl & tr & _ & _ & _ & _ & _ & ->).
  split; reflexivity.
Qed.

(** The table an invocation leaves: the one it found, or that one with a new
    record in front, under a key it did not hold. *)
Lemma path_table {R : Runtime} (E : env) (w : world) (event : pyval)
      (run : response * world) :
  path E w event run ->
  table (snd run) = table w
  \/ (exists d data item,
        event = PDict d
        /\ build_item (dict_get d "RecordID") (dict_get d "Title")
                      (dict_get d "OriginalLanguage") data = Ok item
        /\ tbl_find (dict_get d "RecordID") (dict_get d "Title") (table w) = None
        /\ table (snd run) = item :: table w).
Proof.
  intros H. on_path H; try (left; reflexivity).
  right. exists d, data, item. repeat split; try assumption.
  cbn [snd table]. apply tbl_put_absent.
  destruct (build_item_key _ _ _ _ _ Hb) as [-> ->]. assumption.
Qed.

(** ** Further properties of the handler *)

(** X1: the handler answers with status 400 exactly when the event is an
    object whose [RecordID] or [Title] is falsy: absent, [None], the empty
    string, but also [0], [False], [0.0], an empty list or an empty dict. *)
Theorem status_400_iff_falsy_key {R : Runtime} (E : env) (event : pyval) (w : world) :
  statusCode (fst (lambda_handler E event w)) = 400%Z
  <-> exists d,
        event = PDict d
        /\ (truthy (dict_get d "RecordID") = false \/ truthy (dict_get d "Title") = false).
Proof.
  pose proof (lambda_handler_path E event w) as H.
  remember (lambda_handler E event w) as run eqn:Hrun. clear Hrun.
  on_path H; cbn [fst statusCode]; split;
    try (intros Hs; discriminate Hs);
    try (intros (d' & Heq & [Hd|Hd]); injection Heq as <-; congruence).
  - intros (d' & Heq & _). exfalso. exact (Hobj d' Heq).
  - intros _. exists d. split; [reflexivity | exact Hfalsy].
Qed.

(** X2: an event that is not an object (a list, a string, a number, null)
    ends in status 501 with the message of the [AttributeError] that
    [event.get] raises; no collaborator is called. *)
Theorem event_that_is_no_object_ends_in_501 {R : Runtime} (E : env) (event : pyval)
        (w : world) :
  (forall d, event <> PDict d) ->
  lambda_handler E event w =
  ({| statusCode := 501;
      body := PDict [("error",
                      PStr ("'" ++ type_name event ++ "' object has no attribute 'get'"))] |},
   w).
Proof.
  intros Hobj. apply lambda_handler_raise with (e := AttributeError _).
  apply handler_try_not_dict, Hobj.
Qed.

Lemma event_that_is_no_object_ends_in_501_witness :
  lambda_handler (R := sample_runtime) env7 (PList [PStr "7"; PStr "Amelie"]) empty_world =
  ({| statusCode := 501;
      body := PDict [("error", PStr "'list' object has no attribute 'get'")] |},
   empty_world).
Proof.
  apply (event_that_is_no_object_ends_in_501 (R := sample_runtime) env7
           (PList [PStr "7"; PStr "Amelie"]) empty_world).
  intros d. discriminate.
Defined.

(** X3: when the lookup raises, the handler answers with status 501 and the
    message of the failure ("DynamoDB error: " and the service's message for
    a [ClientError], [str(e)] for any other exception); the lookup is the
    only call made and the table is left as it was. *)
Theorem lookup_failure_ends_in_501 {R : Runtime} (E : env) (d : dict) (w : world)
        (e : exn) :
  truthy (dict_get d "RecordID") = true ->
  truthy (dict_get d "Title") = true ->
  get_item_fault E (dict_get d "RecordID") (dict_get d "Title") = Some e ->
  lambda_handler E (PDict d) w =
  ({| statusCode := 501; body := PDict [("error", PStr (store_error_message e))] |},
   {| table := table w;
      log := log w ++ [GetItemCall (dict_get d "RecordID") (dict_get d "Title")] |}).
Proof.
  intros Hr Ht Hf. rewrite <- str_store_exception.
  apply lambda_handler_raise. apply handler_try_lookup_fails; assumption.
Qed.

Lemma lookup_failure_ends_in_501_witness :
  lambda_handler (R := sample_runtime) env_get_fails event7 empty_world =
  ({| statusCode := 501;
      body := PDict [("error", PStr "DynamoDB error: Throughput exceeded")] |},
   {| table := [];
      log := [GetItemCall (PStr "7") (PStr "La Vita è Bella")] |}).
Proof.
  apply (lookup_failure_ends_in_501 (R := sample_runtime) env_get_fails
           [ ("RecordID", PStr "7"); ("Title", PStr "La Vita è Bella");
             ("OriginalLanguage", PStr "Italian") ]
           empty_world
           (ClientError
              "An error occurred (ProvisionedThroughputExceededException) when calling the GetItem operation: Throughput exceeded"
              "Throughput exceeded"));
    reflexivity.
Defined.

(** X4: on a miss, when the chat completion or the parsing of its reply
    raises, the handler answers with status 501: the fixed parse message for
    a [JSONDecodeError], "OpenAI API error: " and [str(e)] for anything else.
    The table is not called for a write and is left as it was. *)
Theorem analysis_failure_ends_in_501 {R : Runtime} (E : env) (d : dict) (w : world)
        (e : exn) :
  truthy (dict_get d "RecordID") = true ->
  truthy (dict_get d "Title") = true ->
  get_item_fault E (dict_get d "RecordID") (dict_get d "Title") = None ->
  tbl_find (dict_get d "RecordID") (dict_get d "Title") (table w) = None ->
  chat_reply E (dict_get d "Title") = Raise e ->
  lambda_handler E (PDict d) w =
  ({| statusCode := 501; body := PDict [("error", PStr (analysis_error_message e))] |},
   {| table := table w;
      log := log w ++ [GetItemCall (dict_get d "RecordID") (dict_get d "Title");
                       ChatCompletionCall (dict_get d "Title")] |}).
Proof.
  intros Hr Ht Hf Hfind Hc.
  rewrite (miss_analysis_fails E d w Hr Ht Hf Hfind e Hc).
  destruct e; reflexivity.
Qed.

Lemma analysis_failure_ends_in_501_witness :
  lambda_handler (R := sample_runtime) env_chat_fails event42 empty_world =
  ({| statusCode := 501;
      body := PDict [("error", PStr "OpenAI API error: Connection error.")] |},
   {| table := [];
      log := [GetItemCall (PStr "42") (PStr "Amelie");
              ChatCompletionCall (PStr "Amelie")] |}).
Proof.
  apply (analysis_failure_ends_in_501 (R := sample_runtime) env_chat_fails
           [ ("RecordID", PStr "42"); ("Title", PStr "Amelie") ]
           empty_world (OtherError "Connection error."));
    reflexivity.
Defined.

(** X5: whatever the event, the world and the collaborators do, a write the
    handler makes hands the table a record with exactly the eight attributes
    of the [Item] literal, in its order, under the request's own [RecordID]
    and [Title], with the request's [OriginalLanguage] and a [Confidence]
    that is text.  Keys of the reply beyond the five required ones are not
    stored. *)
Theorem only_the_request_record_is_written {R : Runtime} (E : env) (req : dict)
        (w : world) :
  exists calls,
    log (snd (lambda_handler E (PDict req) w)) = (log w ++ calls)%list
    /\ Forall (writes_own_record req) calls.
Proof.
  pose proof (lambda_handler_path E (PDict req) w) as H.
  remember (lambda_handler E (PDict req) w) as run eqn:Hrun. clear Hrun.
  remember (PDict req) as event eqn:Hev.
  on_path H; try (injection Hev as ->); cbn [snd log].
  - exists []. split; [symmetry; apply app_nil_r | constructor].
  - exists []. split; [symmetry; apply app_nil_r | constructor].
  - eexists. split; [reflexivity | repeat constructor].
  - eexists. split; [reflexivity | repeat constructor].
  - eexists. split; [reflexivity | repeat constructor].
  - eexists. split; [reflexivity | repeat constructor].
  - eexists. split; [reflexivity | repeat constructor].
  - eexists. split; [reflexivity|].
    destruct (build_item_shape _ _ _ _ _ Hb) as (dl & dc & c & tl & tr & _ & _ & _ & _ & _ & ->).
    repeat constructor.
  - eexists. split; [reflexivity|].
    destruct (build_item_shape _ _ _ _ _ Hb) as (dl & dc & c & tl & tr & _ & _ & _ & _ & _ & ->).
    repeat constructor.
Qed.

(** X6: an invocation never overwrites or removes a record: a record the
    table holds under some key before the invocation is the record it holds
    under that key afterwards, whatever the event and the collaborators. *)
Theorem existing_records_are_kept {R : Runtime} (E : env) (event : pyval) (w : world)
        (record_id title : pyval) (record : dict) :
  tbl_find record_id title (table w) = Some record ->
  tbl_find record_id title (table (snd (lambda_handler E event w))) = Some record.
Proof.
  intros Hheld.
  destruct (path_table E w event _ (lambda_handler_path E event w))
    as [-> | (d & data & item & _ & Hb & Habsent & ->)]; [exact Hheld|].
  unfold tbl_find. cbn [find].
  destruct (has_key record_id title item) eqn:Hk; [exfalso | exact Hheld].
  destruct (build_item_shape _ _ _ _ _ Hb)
    as (dl & dc & c & tl & tr & _ & _ & _ & _ & _ & Hitem).
  subst item. unfold has_key in Hk. cbn in Hk.
  apply andb_true_iff in Hk. destruct Hk as [Hkr Hkt].
  apply key_eqb_eq in Hkr, Hkt. rewrite Hkr, Hkt in Habsent. congruence.
Qed.

Lemma existing_records_are_kept_witness :
  tbl_find (PStr "8") (PStr "Amelie")
           (table (snd (lambda_handler (R := sample_runtime) env7 event7 world_elsewhere))) =
  Some item8.
Proof.
  apply (existing_records_are_kept (R := sample_runtime) env7 event7 world_elsewhere
           (PStr "8") (PStr "Amelie") item8).
  reflexivity.
Defined.

(** X7: an invocation changes the lookup of no key but the request's own:
    for every other key the table answers after the invocation as it did
    before. *)
Theorem other_keys_are_untouched {R : Runtime} (E : env) (req : dict) (w : world)
        (record_id title : pyval) :
  key_eqb (dict_get req "RecordID") record_id && key_eqb (dict_get req "Title") title = false ->
  tbl_find record_id title (table (snd (lambda_handler E (PDict req) w))) =
  tbl_find record_id title (table w).
Proof.
  intros Hother.
  destruct (path_table E w (PDict req) _ (lambda_handler_path E (PDict req) w))
    as [-> | (d & data & item & Hev & Hb & _ & ->)]; [reflexivity|].
  injection Hev as <-.
  destruct (build_item_shape _ _ _ _ _ Hb)
    as (dl & dc & c & tl & tr & _ & _ & _ & _ & _ & Hitem).
  subst item. unfold tbl_find. cbn [find].
  unfold has_key at 1. cbn. rewrite Hother. reflexivity.
Qed.

Lemma other_keys_are_untouched_witness :
  tbl_find (PStr "42") (PStr "Amelie")
           (table (snd (lambda_handler (R := sample_runtime) env7 event7 world_elsewhere))) =
  tbl_find (PStr "42") (PStr "Amelie") (table world_elsewhere).
Proof.
  apply (other_keys_are_untouched (R := sample_runtime) env7
           [ ("RecordID", PStr "7"); ("Title", PStr "La Vita è Bella");
             ("OriginalLanguage", PStr "Italian") ]
           world_elsewhere (PStr "42") (PStr "Amelie")).
  reflexivity.
Defined.

(** Successive hits, as [invoke_all] runs them: each ends as
    [lambda_handler] ends on the record found. *)
Lemma invoke_all_found {R : Runtime} (Es : list env) (d : dict) (w : world)
      (r : response) :
  (forall E w',
      table w' = table w ->
      get_item_fault E (dict_get d "RecordID") (dict_get d "Title") = None ->
      lambda_handler E (PDict d) w' =
      (r, log_call (GetItemCall (dict_get d "RecordID") (dict_get d "Title")) w')) ->
  Forall (fun E => get_item_fault E (dict_get d "RecordID") (dict_get d "Title") = None) Es ->
  invoke_all Es (PDict d) w =
  (repeat r (length Es),
   {| table := table w;
      log := log w ++ repeat (GetItemCall (dict_get d "RecordID") (dict_get d "Title"))
                            (length Es) |}).
Proof.
  intros Hstep HEs.
  assert (Hgen : forall w', table w' = table w ->
            invoke_all Es (PDict d) w' =
            (repeat r (length Es),
             {| table := table w;
                log := log w' ++ repeat (GetItemCall (dict_get d "RecordID")
                                                     (dict_get d "Title"))
                                        (length Es) |})).
  { induction HEs as [|E Es' HE _ IH]; intros w' Hw'.
    - simpl. rewrite app_nil_r, <- Hw'. destruct w'; reflexivity.
    - cbn [invoke_all]. rewrite (Hstep E w' Hw' HE).
      rewrite (IH (log_call _ w') Hw').
      simpl. rewrite <- app_assoc. reflexivity. }
  exact (Hgen w eq_refl).
Qed.

(** X8: once a miss has stored a record that holds no number, every later
    invocation on the same request that the table answers is a hit: it
    returns the stored record under "Record found." and makes no call but its
    lookup, so the chat endpoint is called once in all.  The data of the
    first response (the reply of the analysis) is never the data of the later
    ones (the stored record). *)
Theorem one_analysis_serves_later_requests {R : Runtime} (E : env) (Es : list env)
        (d : dict) (w : world) (data : pyval) (item : dict) :
  let record_id := dict_get d "RecordID" in
  let title := dict_get d "Title" in
  truthy record_id = true ->
  truthy title = true ->
  key_eqb record_id record_id = true ->
  key_eqb title title = true ->
  get_item_fault E record_id title = None ->
  tbl_find record_id title (table w) = None ->
  chat_reply E title = Ok data ->
  build_item record_id title (dict_get d "OriginalLanguage") data = Ok item ->
  put_item_fault E item = None ->
  holds_number (PDict item) = false ->
  Forall (fun E' => get_item_fault E' record_id title = None) Es ->
  invoke_all (E :: Es) (PDict d) w =
  ({| statusCode := 200;
      body := PDict [("message", PStr "Record processed and stored."); ("data", data)] |}
     :: repeat {| statusCode := 200;
                  body := PDict [("message", PStr "Record found."); ("data", PDict item)] |}
               (length Es),
   {| table := tbl_put item (table w);
      log := (log w ++ [GetItemCall record_id title;
                        ChatCompletionCall title;
                        PutItemCall item])
             ++ repeat (GetItemCall record_id title) (length Es) |})
  /\ data <> PDict item.
Proof.
  intros record_id title Hr Ht Kr Kt Hf Hfind Hc Hb Hp Hplain HEs.
  destruct (build_item_shape _ _ _ _ _ Hb)
    as (dl & dc & c & tl & tr & _ & Hcode & _ & _ & _ & Hitem).
  split.
  - cbn [invoke_all].
    rewrite (miss_stored E d w Hr Ht Hf Hfind data item Hc Hb Hp).
    fold record_id title.
    assert (Hget : tbl_find record_id title (tbl_put item (table w)) = Some item).
    { rewrite Hitem.
      apply (tbl_find_put
               [ ("RecordID", record_id); ("Title", title);
                 ("OriginalLanguage", dict_get d "OriginalLanguage");
                 ("DetectedLanguage", dl); ("DetectedCode", dc);
                 ("Confidence", PStr (py_str c));
                 ("Transliteration", tl); ("Translation", tr) ]);
        try assumption; simpl; discriminate. }
    rewrite (invoke_all_found Es d (Build_world (tbl_put item (table w)) _)
               {| statusCode := 200; body := found_body (PDict item) |}).
    + reflexivity.
    + intros E' w' Hw' HE'. apply lambda_handler_hit; try assumption.
      rewrite Hw'. exact Hget.
    + exact HEs.
  - intros Heq. rewrite Heq, Hitem in Hcode. discriminate Hcode.
Qed.

Lemma one_analysis_serves_later_requests_witness :
  invoke_all (R := sample_runtime) [env7; env_chat_fails; env_not_json] event7 empty_world =
  ([ {| statusCode := 200;
        body := PDict [("message", PStr "Record processed and stored."); ("data", analysis7)] |};
     {| statusCode := 200;
        body := PDict [("message", PStr "Record found."); ("data", PDict item7)] |};
     {| statusCode := 200;
        body := PDict [("message", PStr "Record found."); ("data", PDict item7)] |} ],
   {| table := [item7];
      log := [ GetItemCall (PStr "7") (PStr "La Vita è Bella");
               ChatCompletionCall (PStr "La Vita è Bella");
               PutItemCall item7;
               GetItemCall (PStr "7") (PStr "La Vita è Bella");
               GetItemCall (PStr "7") (PStr "La Vita è Bella") ] |})
  /\ analysis7 <> PDict item7.
Proof.
  apply (one_analysis_serves_later_requests (R := sample_runtime) env7
           [env_chat_fails; env_not_json]
           [ ("RecordID", PStr "7"); ("Title", PStr "La Vita è Bella");
             ("OriginalLanguage", PStr "Italian") ]
           empty_world analysis7 item7);
    try reflexivity.
  repeat constructor.
Defined.

(** X15: once a miss has stored a record that holds a number (its key or a
    field of the reply), the record is neither served nor recomputed: every
    later invocation on the same request that the table answers finds it,
    fails to serialise it and ends in status 501 with the message of the
    [TypeError], after its lookup and no other call. *)
Theorem stored_number_blocks_later_requests {R : Runtime} (E : env) (Es : list env)
        (d : dict) (w : world) (data : pyval) (item : dict) :
  let record_id := dict_get d "RecordID" in
  let title := dict_get d "Title" in
  truthy record_id = true ->
  truthy title = true ->
  key_eqb record_id record_id = true ->
  key_eqb title title = true ->
  get_item_fault E record_id title = None ->
  tbl_find record_id title (table w) = None ->
  chat_reply E title = Ok data ->
  build_item record_id title (dict_get d "OriginalLanguage") data = Ok item ->
  put_item_fault E item = None ->
  holds_number (PDict item) = true ->
  Forall (fun E' => get_item_fault E' record_id title = None) Es ->
  invoke_all (E :: Es) (PDict d) w =
  ({| statusCode := 200;
      body := PDict [("message", PStr "Record processed and stored."); ("data", data)] |}
     :: repeat {| statusCode := 501;
                  body := PDict [("error",
                                  PStr "Object of type Decimal is not JSON serializable")] |}
               (length Es),
   {| table := tbl_put item (table w);
      log := (log w ++ [GetItemCall record_id title;
                        ChatCompletionCall title;
                        PutItemCall item])
             ++ repeat (GetItemCall record_id title) (length Es) |}).
Proof.
  intros record_id title Hr Ht Kr Kt Hf Hfind Hc Hb Hp Hnumber HEs.
  destruct (build_item_shape _ _ _ _ _ Hb)
    as (dl & dc & c & tl & tr & _ & _ & _ & _ & _ & Hitem).
  cbn [invoke_all].
  rewrite (miss_stored E d w Hr Ht Hf Hfind data item Hc Hb Hp).
  fold record_id title.
  assert (Hget : tbl_find record_id title (tbl_put item (table w)) = Some item).
  { rewrite Hitem.
    apply (tbl_find_put
             [ ("RecordID", record_id); ("Title", title);
               ("OriginalLanguage", dict_get d "OriginalLanguage");
               ("DetectedLanguage", dl); ("DetectedCode", dc);
               ("Confidence", PStr (py_str c));
               ("Transliteration", tl); ("Translation", tr) ]);
      try assumption; simpl; discriminate. }
  rewrite (invoke_all_found Es d (Build_world (tbl_put item (table w)) _)
             {| statusCode := 501;
                body := error_body "Object of type Decimal is not JSON serializable" |}).
  - reflexivity.
  - intros E' w' Hw' HE'. apply (lambda_handler_hit_not_serialised E' d w' item);
      try assumption.
    rewrite Hw'. exact Hget.
  - exact HEs.
Qed.

Lemma stored_number_blocks_later_requests_witness :
  invoke_all (R := sample_runtime) [env1984; env1984; env7] event1984 empty_world =
  ([ {| statusCode := 200;
        body := PDict [("message", PStr "Record processed and stored.");
                       ("data", analysis1984)] |};
     {| statusCode := 501;
        body := PDict [("error", PStr "Object of type Decimal is not JSON serializable")] |};
     {| statusCode := 501;
        body := PDict [("error", PStr "Object of type Decimal is not JSON serializable")] |} ],
   {| table := [item1984];
      log := [ GetItemCall (PStr "11") (PStr "1984");
               ChatCompletionCall (PStr "1984");
               PutItemCall item1984;
               GetItemCall (PStr "11") (PStr "1984");
               GetItemCall (PStr "11") (PStr "1984") ] |}).
Proof.
  apply (stored_number_blocks_later_requests (R := sample_runtime) env1984
           [env1984; env7]
           [ ("RecordID", PStr "11"); ("Title", PStr "1984") ]
           empty_world analysis1984 item1984);
    try reflexivity.
  repeat constructor.
Defined.

(** X9: a failed write leaves nothing behind: the next invocation on the same
    request finds no record, calls the chat endpoint again and, when its own
    write succeeds, stores and returns what that second analysis gave. *)
Theorem failed_write_is_recomputed {R : Runtime} (E1 E2 : env) (d : dict) (w : world)
        (data1 data2 : pyval) (item1 item2 : dict) (e : exn) :
  let record_id := dict_get d "RecordID" in
  let title := dict_get d "Title" in
  truthy record_id = true ->
  truthy title = true ->
  tbl_find record_id title (table w) = None ->
  get_item_fault E1 record_id title = None ->
  chat_reply E1 title = Ok data1 ->
  build_item record_id title (dict_get d "OriginalLanguage") data1 = Ok item1 ->
  put_item_fault E1 item1 = Some e ->
  get_item_fault E2 record_id title = None ->
  chat_reply E2 title = Ok data2 ->
  build_item record_id title (dict_get d "OriginalLanguage") data2 = Ok item2 ->
  put_item_fault E2 item2 = None ->
  invoke_all [E1; E2] (PDict d) w =
  ([ {| statusCode := 501; body := error_body (store_error_message e) |};
     {| statusCode := 200; body := stored_body data2 |} ],
   {| table := tbl_put item2 (table w);
      log := log w ++ [ GetItemCall record_id title;
                        ChatCompletionCall title;
                        PutItemCall item1;
                        GetItemCall record_id title;
                        ChatCompletionCall title;
                        PutItemCall item2 ] |}).
Proof.
  intros record_id title Hr Ht Hfind Hf1 Hc1 Hb1 Hp1 Hf2 Hc2 Hb2 Hp2.
  cbn [invoke_all].
  rewrite (miss_put_fails E1 d w Hr Ht Hf1 Hfind data1 item1 e Hc1 Hb1 Hp1).
  rewrite (miss_stored E2 d (Build_world (table w) _) Hr Ht Hf2 Hfind data2 item2 Hc2 Hb2 Hp2).
  cbn [table log]. rewrite <- app_assoc. reflexivity.
Qed.

Lemma failed_write_is_recomputed_witness :
  invoke_all (R := sample_runtime) [env7_put_fails; env7] event7 empty_world =
  ([ {| statusCode := 501; body := error_body "DynamoDB error: Throughput exceeded" |};
     {| statusCode := 200; body := stored_body analysis7 |} ],
   {| table := [item7];
      log := [ GetItemCall (PStr "7") (PStr "La Vita è Bella");
               ChatCompletionCall (PStr "La Vita è Bella");
               PutItemCall item7;
               GetItemCall (PStr "7") (PStr "La Vita è Bella");
               ChatCompletionCall (PStr "La Vita è Bella");
               PutItemCall item7 ] |}).
Proof.
  apply (failed_write_is_recomputed (R := sample_runtime) env7_put_fails env7
           [ ("RecordID", PStr "7"); ("Title", PStr "La Vita è Bella");
             ("OriginalLanguage", PStr "Italian") ]
           empty_world analysis7 analysis7 item7 item7
           (ClientError
              "An error occurred (ProvisionedThroughputExceededException) when calling the PutItem operation: Throughput exceeded"
              "Throughput exceeded"));
    reflexivity.
Defined.

(** X11: the handler reports "Record processed and stored." exactly when the
    write happened: either the response is that one and the table is the old
    one with the built record in front, or the table is left as it was and
    the body of the response is not of that form. *)
Theorem stored_is_reported_exactly_when_written {R : Runtime} (E : env) (event : pyval)
        (w : world) :
  (exists d data item,
      event = PDict d
      /\ build_item (dict_get d "RecordID") (dict_get d "Title")
                    (dict_get d "OriginalLanguage") data = Ok item
      /\ lambda_handler E event w =
         ({| statusCode := 200; body := stored_body data |},
          {| table := item :: table w;
             log := log w ++ [GetItemCall (dict_get d "RecordID") (dict_get d "Title");
                              ChatCompletionCall (dict_get d "Title");
                              PutItemCall item] |}))
  \/ (table (snd (lambda_handler E event w)) = table w
      /\ forall data, body (fst (lambda_handler E event w)) <> stored_body data).
Proof.
  pose proof (lambda_handler_path E event w) as H.
  remember (lambda_handler E event w) as run eqn:Hrun. clear Hrun.
  on_path H;
    try (right; split; [reflexivity | intros data'; cbn [fst body]; discriminate]).
  left. exists d, data, item. split; [reflexivity|]. split; [exact Hb|].
  rewrite tbl_put_absent; [reflexivity|].
  destruct (build_item_key _ _ _ _ _ Hb) as [-> ->]. exact Hfind.
Qed.

(** X12: data returned under "Record found." is a record of the table: the
    one it holds under the request's [RecordID] and [Title].  Such a response
    comes with one lookup and nothing else, and leaves the table as it
    was. *)
Theorem found_data_is_the_record_of_the_table {R : Runtime} (E : env) (event : pyval)
        (w : world) (record : pyval) :
  body (fst (lambda_handler E event w)) = found_body record ->
  exists d item,
    event = PDict d
    /\ record = PDict item
    /\ tbl_find (dict_get d "RecordID") (dict_get d "Title") (table w) = Some item
    /\ snd (lambda_handler E event w) =
       {| table := table w;
          log := log w ++ [GetItemCall (dict_get d "RecordID") (dict_get d "Title")] |}.
Proof.
  pose proof (lambda_handler_path E event w) as H.
  remember (lambda_handler E event w) as run eqn:Hrun. clear Hrun.
  on_path H; cbn [fst snd body]; intros Hbody; try discriminate Hbody.
  injection Hbody as <-.
  exists d, item. repeat split. exact Hfind.
Qed.

Lemma found_data_is_the_record_of_the_table_witness :
  exists d item,
    event7 = PDict d
    /\ PDict item7 = PDict item
    /\ tbl_find (dict_get d "RecordID") (dict_get d "Title") [item7] = Some item
    /\ snd (lambda_handler (R := sample_runtime) env_chat_fails event7
              {| table := [item7]; log := [] |}) =
       {| table := [item7];
          log := [] ++ [GetItemCall (dict_get d "RecordID") (dict_get d "Title")] |}.
Proof.
  apply (found_data_is_the_record_of_the_table (R := sample_runtime) env_chat_fails
           event7 {| table := [item7]; log := [] |} (PDict item7)).
  reflexivity.
Defined.

(** ** The request sent for a title *)

Lemma list_ascii_of_append (a b : string) :
  list_ascii_of_string (a ++ b) =
  (list_ascii_of_string a ++ list_ascii_of_string b)%list.
Proof.
  induction a as [|ch a IH]; simpl; [reflexivity|]. rewrite IH. reflexivity.
Qed.

Lemma append_inv_tail (a b s : string) : a ++ s = b ++ s -> a = b.
Proof.
  intros H. apply (f_equal list_ascii_of_string) in H.
  rewrite !list_ascii_of_append in H. apply app_inv_tail in H.
  rewrite <- (string_of_list_ascii_of_string a), H.
  apply string_of_list_ascii_of_string.
Qed.

(** X10: the request built for a title determines the text of the title and
    nothing more: two titles lead to the same request exactly when [str]
    prints them alike.  Distinct string titles never share a request; the
    number 1 and the string "1" do. *)
Theorem chat_request_determines_title_text {R : Runtime} (t1 t2 : pyval) :
  (chat_request t1 = chat_request t2 <-> py_str t1 = py_str t2)
  /\ chat_request (PInt 1) = chat_request (PStr "1").
Proof.
  split; [split|].
  - unfold chat_request, user_prompt. intros H.
    injection H as H.
    apply append_inv_tail in H. exact H.
  - intros H. unfold chat_request, user_prompt. rewrite H. reflexivity.
  - reflexivity.
Qed.

(** ** The error of a reply that lacks a key *)

Lemma build_item_first_missing_key {R : Runtime}
      (record_id title original_language : pyval) (reply : dict) (k : string) :
  first_missing_key reply = Some k ->
  build_item record_id title original_language (PDict reply) = Raise (KeyError k).
Proof.
  unfold first_missing_key, required_keys, find, has_field, build_item, rbind, subscript.
  repeat match goal with
         | |- context [dict_lookup reply ?key] => destruct (dict_lookup reply key)
         end; cbn [negb]; intros H; try discriminate H; injection H as <-; reflexivity.
Qed.

(** X13: on a miss, when the reply is an object that lacks a required key,
    the body of the 501 response is the name of the first key it lacks, in
    the order DetectedLanguage, ISO639LanguageCode, Confidence,
    Transliteration, Translation, between single quotes, and nothing else;
    the table is not called for a write. *)
Theorem missing_key_is_named_in_the_error {R : Runtime} (E : env) (d : dict) (w : world)
        (reply : dict) (k : string) :
  truthy (dict_get d "RecordID") = true ->
  truthy (dict_get d "Title") = true ->
  get_item_fault E (dict_get d "RecordID") (dict_get d "Title") = None ->
  tbl_find (dict_get d "RecordID") (dict_get d "Title") (table w) = None ->
  chat_reply E (dict_get d "Title") = Ok (PDict reply) ->
  first_missing_key reply = Some k ->
  lambda_handler E (PDict d) w =
  ({| statusCode := 501; body := PDict [("error", PStr ("'" ++ k ++ "'"))] |},
   {| table := table w;
      log := log w ++ [GetItemCall (dict_get d "RecordID") (dict_get d "Title");
                       ChatCompletionCall (dict_get d "Title")] |}).
Proof.
  intros Hr Ht Hf Hfind Hc Hk.
  exact (miss_build_fails E d w Hr Ht Hf Hfind (PDict reply) (KeyError k) Hc
           (build_item_first_missing_key _ _ _ reply k Hk)).
Qed.

Lemma missing_key_is_named_in_the_error_witness :
  lambda_handler (R := sample_runtime) env_short event42 empty_world =
  ({| statusCode := 501; body := PDict [("error", PStr "'Translation'")] |},
   {| table := [];
      log := [GetItemCall (PStr "42") (PStr "Amelie");
              ChatCompletionCall (PStr "Amelie")] |}).
Proof.
  apply (missing_key_is_named_in_the_error (R := sample_runtime) env_short
           [ ("RecordID", PStr "42"); ("Title", PStr "Amelie") ]
           empty_world
           [ ("DetectedLanguage", PStr "French");
             ("ISO639LanguageCode", PStr "fr");
             ("Confidence", PFloat "0.87");
             ("Transliteration", PStr "Amelie") ]
           "Translation");
    reflexivity.
Defined.
